(** * YoutubeStreamExtractor: the identifier normaliser and the extraction
      gateway of [main.py], embedded in Rocq.

    A Python [str] is modelled by a Rocq [string].  Every pattern and every
    substring test of [main.py] mentions ASCII characters only, the bracket
    class [[0-9A-Za-z_-]] holds ASCII characters only and [.] accepts every
    character but the line feed, so a character outside ASCII behaves the
    same whatever its code is.  A Python dict with string keys is a
    [gmap string _]. *)

From Stdlib Require Import Ascii String.
From stdpp Require Import base option gmap strings list.

Set Warnings "-register-all".
Set Default Proof Using "Type".

Open Scope string_scope.

(** ** Characters and strings *)

(** The line feed, ["\n"] in Python. *)
Definition LF : ascii := "010"%char.

Definition in_range (lo hi c : ascii) : bool :=
  (nat_of_ascii lo <=? nat_of_ascii c)%nat && (nat_of_ascii c <=? nat_of_ascii hi)%nat.

(** The bracket class [[0-9A-Za-z_-]] of the four patterns. *)
Definition id_char (c : ascii) : bool :=
  in_range "0" "9" c || in_range "A" "Z" c || in_range "a" "z" c
  || Ascii.eqb c "_" || Ascii.eqb c "-".

Fixpoint str_all (p : ascii -> bool) (s : string) : bool :=
  match s with
  | EmptyString => true
  | String c s' => p c && str_all p s'
  end.

(** The first [n] characters of [s], Python's [s[:n]]. *)
Fixpoint str_take (n : nat) (s : string) : string :=
  match n, s with
  | S n', String c s' => String c (str_take n' s')
  | _, _ => EmptyString
  end.

(** [strip_prefix p s] is what follows [p] in [s] when [s] starts with [p]. *)
Fixpoint strip_prefix (p s : string) : option string :=
  match p, s with
  | EmptyString, _ => Some s
  | String a p', String b s' => if Ascii.eqb a b then strip_prefix p' s' else None
  | String _ _, EmptyString => None
  end.

(** Python's [needle in hay] on two strings. *)
Fixpoint str_in (needle hay : string) : bool :=
  match strip_prefix needle hay with
  | Some _ => true
  | None => match hay with
            | EmptyString => false
            | String _ hay' => str_in needle hay'
            end
  end.

(** A canonical video ID: exactly 11 characters of the class. *)
Definition canonical (s : string) : bool :=
  (String.length s =? 11)%nat && str_all id_char s.

(** ** The fragment of Python's [re] that [main.py] uses

    A backtracking matcher in continuation-passing style: alternatives are
    tried left to right, repetition is greedy, and the first way through
    that satisfies the continuation wins, as in [re]. *)
Module Re.

Inductive regex : Type :=
| Lit (l : string)                (* literal characters *)
| Dot                             (* [.]: any character but the line feed *)
| Cls (p : ascii -> bool)         (* a bracket class *)
| Bol                             (* [^] *)
| Eol                             (* [$] *)
| Seq (r1 r2 : regex)
| Alt (r1 r2 : regex)             (* [r1|r2] *)
| Rep (r : regex) (n : nat)       (* [r{n}] *)
| Star (r : regex)                (* [r*] *)
| Group (r : regex).              (* the capturing group [(r)] *)

(** Where the matcher stands: [pos] characters of the subject are behind
    it, [rest] is ahead of it, [grp] is what group 1 has captured. *)
Record mstate : Type := MState { pos : nat; rest : string; grp : option string }.

Definition cont : Type := mstate -> option mstate.
Definition matcher : Type := mstate -> cont -> option mstate.

Definition or_else (a b : option mstate) : option mstate :=
  match a with Some x => Some x | None => b end.

Definition advance (n : nat) (s : string) (st : mstate) : mstate :=
  MState (pos st + n) s (grp st).

Definition m_lit (l : string) : matcher := fun st k =>
  match strip_prefix l (rest st) with
  | Some s' => k (advance (String.length l) s' st)
  | None => None
  end.

Definition m_cls (p : ascii -> bool) : matcher := fun st k =>
  match rest st with
  | String c s' => if p c then k (advance 1 s' st) else None
  | EmptyString => None
  end.

(** [$] without MULTILINE: at the end of the subject, and also just before
    a line feed that is the subject's last character. *)
Definition at_eol (s : string) : bool :=
  match s with
  | EmptyString => true
  | String c EmptyString => Ascii.eqb c LF
  | _ => false
  end.

Fixpoint m_rep (mr : matcher) (n : nat) : matcher := fun st k =>
  match n with
  | O => k st
  | S n' => mr st (fun st' => m_rep mr n' st' k)
  end.

(** Greedy [r*]: one more [r] that consumes something, else stop here.
    [fuel] bounds the number of rounds; the length of what is ahead plus
    one is always enough, each round consuming a character. *)
Fixpoint m_star (mr : matcher) (fuel : nat) : matcher := fun st k =>
  match fuel with
  | O => k st
  | S fuel' =>
      or_else
        (mr st (fun st' =>
           if (String.length (rest st') <? String.length (rest st))%nat
           then m_star mr fuel' st' k else None))
        (k st)
  end.

Definition set_group (st0 st' : mstate) : mstate :=
  MState (pos st') (rest st') (Some (str_take (pos st' - pos st0) (rest st0))).

Fixpoint m (r : regex) : matcher :=
  match r with
  | Lit l => m_lit l
  | Dot => m_cls (fun c => negb (Ascii.eqb c LF))
  | Cls p => m_cls p
  | Bol => fun st k => if (pos st =? 0)%nat then k st else None
  | Eol => fun st k => if at_eol (rest st) then k st else None
  | Seq r1 r2 => fun st k => m r1 st (fun st' => m r2 st' k)
  | Alt r1 r2 => fun st k => or_else (m r1 st k) (m r2 st k)
  | Rep r' n => m_rep (m r') n
  | Star r' => fun st k => m_star (m r') (S (String.length (rest st))) st k
  | Group r' => fun st k => m r' st (fun st' => k (set_group st st'))
  end.

(** One attempt with the pattern's first character at offset [i]. *)
Definition match_at (r : regex) (i : nat) (s : string) : option mstate :=
  m r (MState i s None) Some.

(** [re.match(r, s)]: the pattern has to match at offset 0. *)
Definition re_match (r : regex) (s : string) : option mstate := match_at r 0 s.

(** [re.search(r, s)]: the leftmost offset at which the pattern matches. *)
Fixpoint search_from (r : regex) (i : nat) (s : string) : option mstate :=
  match match_at r i s with
  | Some mo => Some mo
  | None => match s with
            | EmptyString => None
            | String _ s' => search_from r (S i) s'
            end
  end.

Definition re_search (r : regex) (s : string) : option mstate := search_from r 0 s.

(** [match.group(1)] of a pattern whose group takes part in every match. *)
Definition group1 (mo : mstate) : string := default "" (grp mo).

End Re.

Import Re.

(** ** [extract_video_id] *)

Definition id_run : regex := Group (Rep (Cls id_char) 11).

(** [r'^[0-9A-Za-z_-]{11}$'] *)
Definition valid_id_pattern : regex := Seq Bol (Seq (Rep (Cls id_char) 11) Eol).

(** [r'(?:v=|\/)([0-9A-Za-z_-]{11}).*'] *)
Definition pattern1 : regex := Seq (Alt (Lit "v=") (Lit "/")) (Seq id_run (Star Dot)).

(** [r'(?:embed\/|v\/|youtu.be\/)([0-9A-Za-z_-]{11})'] *)
Definition pattern2 : regex :=
  Seq (Alt (Lit "embed/") (Alt (Lit "v/") (Seq (Lit "youtu") (Seq Dot (Lit "be/")))))
      id_run.

(** [r'(?:watch\?v=)([0-9A-Za-z_-]{11})'] *)
Definition pattern3 : regex := Seq (Lit "watch?v=") id_run.

Definition patterns : list regex := [pattern1; pattern2; pattern3].

(** The [for pattern in patterns] loop: the first pattern that is found
    anywhere in the input gives its group 1. *)
Fixpoint first_search (ps : list regex) (s : string) : option string :=
  match ps with
  | [] => None
  | p :: ps' => match re_search p s with
                | Some mo => Some (group1 mo)
                | None => first_search ps' s
                end
  end.

(** [None] is Python's [None], [Some s] the string returned. *)
Definition extract_video_id (url_or_id : string) : option string :=
  match re_match valid_id_pattern url_or_id with
  | Some _ => Some url_or_id
  | None => first_search patterns url_or_id
  end.

(** ** Python values, exceptions and the operations [main.py] applies

    The values a structured result of the extraction capability is made
    of.  Floats are left out: in every operation below one would behave as
    an integer does. *)
Inductive pyval : Type :=
| VNone
| VBool (b : bool)
| VInt (z : Z)
| VStr (s : string)
| VList (l : list pyval)
| VDict (d : gmap string pyval).

(** The classes of the exceptions that can be raised inside the [try].
    The first six derive from [Exception]: [OtherException] is any further
    such class that the capability raises (a network error, say).  The
    last four derive from [BaseException] only: [OtherBaseException] is
    any further such class. *)
Inductive exn_class : Type :=
| DownloadError
| KeyError
| IndexError
| TypeError
| AttributeError
| OtherException
| KeyboardInterrupt
| SystemExit
| GeneratorExit
| OtherBaseException.

(** [issubclass(c, Exception)]. *)
Definition derives_from_Exception (c : exn_class) : bool :=
  match c with
  | KeyboardInterrupt | SystemExit | GeneratorExit | OtherBaseException => false
  | _ => true
  end.

(** An exception: its class and [str(e)]. *)
Record exn : Type := Exn { exn_class_of : exn_class; exn_str : string }.

Inductive outcome (A : Type) : Type :=
| Ok (a : A)
| Raise (e : exn).
Arguments Ok {A} a.
Arguments Raise {A} e.

#[global] Instance outcome_ret : MRet outcome := fun A a => Ok a.
#[global] Instance outcome_bind : MBind outcome := fun A B f c =>
  match c with
  | Ok a => f a
  | Raise e => Raise e
  end.

Definition type_name (v : pyval) : string :=
  match v with
  | VNone => "NoneType"
  | VBool _ => "bool"
  | VInt _ => "int"
  | VStr _ => "str"
  | VList _ => "list"
  | VDict _ => "dict"
  end.

(** [bool(v)], as [if v:] tests it. *)
Definition truthy (v : pyval) : bool :=
  match v with
  | VNone => false
  | VBool b => b
  | VInt z => negb (z =? 0)%Z
  | VStr s => negb (String.eqb s "")
  | VList l => match l with [] => false | _ => true end
  | VDict d => negb (bool_decide (d = ∅))
  end.

Definition is_str (key : string) (v : pyval) : bool :=
  match v with
  | VStr s => String.eqb s key
  | _ => false
  end.

(** [key in v] for a string [key]. *)
Definition py_in (key : string) (v : pyval) : outcome bool :=
  match v with
  | VDict d => Ok (bool_decide (is_Some (d !! key)))
  | VList l => Ok (existsb (is_str key) l)
  | VStr s => Ok (str_in key s)
  | _ => Raise (Exn TypeError ("argument of type '" +:+ type_name v +:+ "' is not iterable"))
  end.

(** [v[key]] for a string [key]; the [str] of a [KeyError] is the [repr]
    of the key, which for a key of letters is the key between quotes. *)
Definition py_getitem (v : pyval) (key : string) : outcome pyval :=
  match v with
  | VDict d => match d !! key with
               | Some x => Ok x
               | None => Raise (Exn KeyError ("'" +:+ key +:+ "'"))
               end
  | VList _ => Raise (Exn TypeError "list indices must be integers or slices, not str")
  | VStr _ => Raise (Exn TypeError "string indices must be integers, not 'str'")
  | _ => Raise (Exn TypeError ("'" +:+ type_name v +:+ "' object is not subscriptable"))
  end.

(** [v[0]]. *)
Definition py_getitem0 (v : pyval) : outcome pyval :=
  match v with
  | VList (x :: _) => Ok x
  | VList [] => Raise (Exn IndexError "list index out of range")
  | VStr (String c _) => Ok (VStr (String c ""))
  | VStr EmptyString => Raise (Exn IndexError "string index out of range")
  | VDict _ => Raise (Exn KeyError "0")
  | _ => Raise (Exn TypeError ("'" +:+ type_name v +:+ "' object is not subscriptable"))
  end.

(** [v.get(key, dflt)]. *)
Definition py_get (v : pyval) (key : string) (dflt : pyval) : outcome pyval :=
  match v with
  | VDict d => Ok (default dflt (d !! key))
  | _ => Raise (Exn AttributeError ("'" +:+ type_name v +:+ "' object has no attribute 'get'"))
  end.

(** ** [get_youtube_stream_url] *)

(** The extraction capability: [yt_dlp.YoutubeDL(opts)] entered as a
    context manager, [extract_info(url, download=...)] called on it, and
    the block left.  What it returns or raises is not this program's to
    decide. *)
Definition capability : Type := gmap string pyval -> string -> bool -> outcome pyval.

Definition ydl_opts : gmap string pyval :=
  {[ "format" := VStr "best";
     "noplaylist" := VBool true;
     "skip_download" := VBool true;
     "quiet" := VBool true;
     "no_warnings" := VBool true ]}.

(** The result triple [(stream_url, video_info, error)]. *)
Definition triple : Type := pyval * pyval * pyval.

Definition failure (error : string) : triple := (VNone, VNone, VStr error).

(** Lines 73 to 81: the metadata dict and the success triple. *)
Definition with_video_info (info stream_url : pyval) : outcome triple :=
  title ← py_get info "title" (VStr "Unknown");
  description ← py_get info "description" (VStr "");
  channel_name ← py_get info "channel" (VStr "Unknown");
  duration ← py_get info "duration" (VInt 0);
  thumbnail ← py_get info "thumbnail" (VStr "");
  Ok (stream_url,
      VDict {[ "title" := title;
               "description" := description;
               "channel_name" := channel_name;
               "duration" := duration;
               "thumbnail" := thumbnail ]},
      VNone).

(** The body of the [try]. *)
Definition try_body (ydl : capability) (video_id : string) : outcome triple :=
  let video_url := "https://www.youtube.com/watch?v=" +:+ video_id in
  info ← ydl ydl_opts video_url false;
  has_url ← py_in "url" info;
  if (has_url : bool) then
    stream_url ← py_getitem info "url";
    with_video_info info stream_url
  else
    formats ← py_get info "formats" (VList []);
    if truthy formats then
      first ← py_getitem0 formats;
      stream_url ← py_getitem first "url";
      with_video_info info stream_url
    else Ok (failure "No stream URL found in video info").

(** The two [except] clauses; an exception that neither of them catches
    goes on to the caller. *)
Definition handle (e : exn) : outcome triple :=
  match exn_class_of e with
  | DownloadError =>
      let error_message := exn_str e in
      if str_in "Video unavailable" error_message then
        Ok (failure "Video is unavailable or has been removed")
      else if str_in "Private video" error_message then
        Ok (failure "This video is private")
      else if str_in "Sign in to confirm your age" error_message then
        Ok (failure "Age-restricted video")
      else Ok (failure ("Error downloading video information: " +:+ error_message))
  | c =>
      if derives_from_Exception c then Ok (failure ("Unexpected error: " +:+ exn_str e))
      else Raise e
  end.

Definition get_youtube_stream_url (ydl : capability) (video_id : string) : outcome triple :=
  match try_body ydl video_id with
  | Ok t => Ok t
  | Raise e => handle e
  end.

(** ** [get_stream], the request handler *)

(** [jsonify(body), status]. *)
Record response : Type := Response { body : gmap string pyval; status : nat }.

(** [urllib.parse.unquote]: a string without a percent sign is returned
    as it is; the decoding of the others is the library's, taken here as
    [percent_decode]. *)
Definition unquote (percent_decode : string -> string) (s : string) : string :=
  if str_in "%" s then percent_decode s else s.

Definition invalid_input : response :=
  Response {[ "success" := VBool false;
              "error" := VStr "Invalid YouTube video ID or URL" ]} 400.

(** The call of [logger.error] on the failure path writes to the log and
    leaves the response as it is; it is not modelled. *)
Definition get_stream (percent_decode : string -> string) (ydl : capability)
    (video_id_or_url : string) : outcome response :=
  let video_id_or_url := unquote percent_decode video_id_or_url in
  match extract_video_id video_id_or_url with
  | None => Ok invalid_input
  | Some video_id =>
      if negb (truthy (VStr video_id)) then Ok invalid_input
      else
        '(stream_url, video_info, error) ← get_youtube_stream_url ydl video_id;
        if truthy error then
          Ok (Response {[ "success" := VBool false;
                          "error" := error;
                          "video_id" := VStr video_id ]} 404)
        else
          Ok (Response {[ "success" := VBool true;
                          "video_id" := VStr video_id;
                          "stream_url" := stream_url;
                          "video_info" := video_info;
                          "cache_info" := VStr "Stream URL expires after maximum 12 hours" ]}
                       200)
  end.

(** ** The two error handlers *)

(** [page_not_found] and [internal_server_error]; the exception they are
    handed is not looked at. *)
Definition page_not_found (e : exn) : response :=
  Response {[ "success" := VBool false; "error" := VStr "Endpoint not found" ]} 404.

Definition internal_server_error (e : exn) : response :=
  Response {[ "success" := VBool false; "error" := VStr "Internal server error" ]} 500.


(** ** What the patterns compute, as plain functions on strings

    The functions of this part are not in [main.py]: they say, without a
    regular expression engine, what each pattern finds, and the lemmas
    below prove that the engine computes exactly that. *)

(** [split_run p n s]: the [n] first characters of [s] when they are all
    in [p], and what follows them. *)
Fixpoint split_run (p : ascii -> bool) (n : nat) (s : string) : option (string * string) :=
  match n with
  | O => Some (EmptyString, s)
  | S n' =>
      match s with
      | String c s' =>
          if p c then
            match split_run p n' s' with
            | Some (run, tl) => Some (String c run, tl)
            | None => None
            end
          else None
      | EmptyString => None
      end
  end.

(** What follows the leading literal in [pattern1], and in the two others. *)
Definition tail1 : cont := fun st => m id_run st (fun st' => m (Star Dot) st' Some).
Definition tail2 : cont := fun st => m id_run st Some.

(** The 11 class characters that follow [pre] at the head of [s]. *)
Definition id_after (pre s : string) : option string :=
  match strip_prefix pre s with
  | Some s' => fst <$> split_run id_char 11 s'
  | None => None
  end.

Definition first_of (a b : option string) : option string :=
  match a with Some x => Some x | None => b end.

(** Group 1 of each pattern when the pattern starts at the head of [s]. *)
Definition hit1 (s : string) : option string :=
  first_of (id_after "v=" s) (id_after "/" s).

Definition hit2 (s : string) : option string :=
  first_of (id_after "embed/" s)
    (first_of (id_after "v/" s)
       (match strip_prefix "youtu" s with
        | Some (String c s') => if negb (Ascii.eqb c LF) then id_after "be/" s' else None
        | _ => None
        end)).

Definition hit3 (s : string) : option string := id_after "watch?v=" s.

(** The leftmost suffix of [s] on which [f] answers. *)
Fixpoint scan (f : string -> option string) (s : string) : option string :=
  match f s with
  | Some x => Some x
  | None => match s with
            | EmptyString => None
            | String _ s' => scan f s'
            end
  end.

(** What the test of line 26 accepts. *)
Definition accepted (s : string) : bool :=
  match split_run id_char 11 s with
  | Some (_, tl) => at_eol tl
  | None => false
  end.

(** Somewhere in [s] stands [v=] or [/] with 11 class characters after it. *)
Definition has_id_after (s : string) : Prop :=
  ∃ pre lead id tl,
    (lead = "v=" ∨ lead = "/") ∧ canonical id = true ∧ s = pre +:+ lead +:+ id +:+ tl.

(** A character that can start neither [v=] nor a slash. *)
Definition no_lead (c : ascii) : bool :=
  negb (Ascii.eqb c "v") && negb (Ascii.eqb c "/").

(** The metadata dict that lines 73 to 79 build from an info dict [d]. *)
Definition video_info_of (d : gmap string pyval) : gmap string pyval :=
  {[ "title" := default (VStr "Unknown") (d !! "title");
     "description" := default (VStr "") (d !! "description");
     "channel_name" := default (VStr "Unknown") (d !! "channel");
     "duration" := default (VInt 0) (d !! "duration");
     "thumbnail" := default (VStr "") (d !! "thumbnail") ]}.

(** Where the [try] body takes the stream URL of an info dict [d] from:
    the top-level [url], else the [url] of the first entry of [formats]. *)
Definition stream_source (d : gmap string pyval) : option pyval :=
  match d !! "url" with
  | Some stream_url => Some stream_url
  | None =>
      match d !! "formats" with
      | Some (VList (VDict first :: _)) => first !! "url"
      | _ => None
      end
  end.

(** The two shapes of a result triple. *)
Definition success_shape (t : triple) : Prop :=
  ∃ stream_url video_info, t = (stream_url, VDict video_info, VNone).

Definition failure_shape (t : triple) : Prop :=
  ∃ error, error ≠ "" ∧ t = failure error.

(** Stub capabilities, and the structured results of the examples. *)
Definition returning (info : pyval) : capability := fun _ _ _ => Ok info.
Definition raising (e : exn) : capability := fun _ _ _ => Raise e.

Definition two_formats : gmap string pyval :=
  {[ "formats" := VList [ VDict {[ "url" := VStr "https://cdn/f0" ]};
                          VDict {[ "url" := VStr "https://cdn/f1" ]} ] ]}.

Definition url_and_title : gmap string pyval :=
  {[ "url" := VStr "https://cdn/stream"; "title" := VStr "T" ]}.

Definition null_url : gmap string pyval := {[ "url" := VNone ]}.

(** * Properties *)

(** ** Strings *)

#[local] Arguments String.append !s1 s2 : simpl nomatch.

Lemma append_empty_r (s : string) : s +:+ "" = s.
Proof. induction s as [|c s IH]; simpl; congruence. Qed.

Lemma append_assoc (a b c : string) : (a +:+ b) +:+ c = a +:+ (b +:+ c).
Proof. induction a as [|x a IH]; simpl; congruence. Qed.

Lemma strip_prefix_spec (p s s' : string) :
  strip_prefix p s = Some s' ↔ s = p +:+ s'.
Proof.
  revert s. induction p as [|a p IH]; intros s; simpl.
  - split; [by intros [= ->] | by intros ->].
  - destruct s as [|b s]; [split; [done | discriminate] |].
    destruct (Ascii.eqb_spec a b) as [->|Hab].
    + rewrite IH. split; [by intros -> | by intros [= ->]].
    + split; [done | intros [= ? ?]; done].
Qed.

Lemma strip_prefix_app (p s : string) : strip_prefix p (p +:+ s) = Some s.
Proof. by apply strip_prefix_spec. Qed.

Lemma split_run_sound (p : ascii -> bool) (n : nat) (s run tl : string) :
  split_run p n s = Some (run, tl) →
  s = run +:+ tl ∧ String.length run = n ∧ str_all p run = true.
Proof.
  revert s run. induction n as [|n IH]; intros s run; simpl.
  - by intros [= <- <-].
  - destruct s as [|c s]; [done|]. destruct (p c) eqn:Hc; [|done].
    destruct (split_run p n s) as [[run' tl']|] eqn:Hs; [|done].
    intros [= <- <-]. destruct (IH _ _ Hs) as (-> & Hl & Ha).
    simpl. by rewrite Hc, Hl, Ha.
Qed.

Lemma split_run_complete (p : ascii -> bool) (run tl : string) :
  str_all p run = true →
  split_run p (String.length run) (run +:+ tl) = Some (run, tl).
Proof.
  induction run as [|c run IH]; simpl; [done|].
  intros [Hc Ha]%andb_true_iff. by rewrite Hc, (IH Ha).
Qed.

Lemma split_run_spec (p : ascii -> bool) (n : nat) (s run tl : string) :
  split_run p n s = Some (run, tl) ↔
  s = run +:+ tl ∧ String.length run = n ∧ str_all p run = true.
Proof.
  split; [apply split_run_sound|].
  intros (-> & <- & Ha). by apply split_run_complete.
Qed.

Lemma split_run_canonical (id tl : string) :
  canonical id = true → split_run id_char 11 (id +:+ tl) = Some (id, tl).
Proof.
  unfold canonical. intros [Hl Ha]%andb_true_iff. apply Nat.eqb_eq in Hl.
  by apply split_run_spec.
Qed.

Lemma split_run_is_canonical (s run tl : string) :
  split_run id_char 11 s = Some (run, tl) → canonical run = true ∧ s = run +:+ tl.
Proof.
  intros (-> & Hl & Ha)%split_run_sound. unfold canonical.
  by rewrite Hl, Ha.
Qed.

Lemma split_run_take (p : ascii -> bool) (n : nat) (s run tl : string) :
  split_run p n s = Some (run, tl) → str_take n s = run.
Proof.
  revert s run. induction n as [|n IH]; intros s run; simpl.
  - intros [= <- <-]. by destruct s.
  - destruct s as [|c s]; [done|]. destruct (p c); [|done].
    destruct (split_run p n s) as [[run' tl']|] eqn:Hs; [|done].
    intros [= <- <-]. by rewrite (IH _ _ Hs).
Qed.

(** ** The engine on the pieces of the four patterns *)

Lemma m_rep_cls (p : ascii -> bool) (n : nat) (st : mstate) (k : cont) :
  m_rep (m_cls p) n st k =
  match split_run p n (rest st) with
  | Some (_, tl) => k (MState (pos st + n) tl (grp st))
  | None => None
  end.
Proof.
  revert st. induction n as [|n IH]; intros [i s g]; simpl.
  - by rewrite Nat.add_0_r.
  - unfold m_cls; simpl. destruct s as [|c s]; [done|].
    destruct (p c); [|done]. rewrite IH. unfold advance; simpl.
    destruct (split_run p n s) as [[run tl]|]; [|done].
    by replace (i + 1 + n) with (i + S n) by lia.
Qed.

Lemma m_id_run (st : mstate) (k : cont) :
  m id_run st k =
  match split_run id_char 11 (rest st) with
  | Some (run, tl) => k (MState (pos st + 11) tl (Some run))
  | None => None
  end.
Proof.
  unfold id_run. cbn [m]. rewrite m_rep_cls.
  destruct (split_run id_char 11 (rest st)) as [[run tl]|] eqn:Hs; [|done].
  unfold set_group; cbn [pos rest].
  replace (pos st + 11 - pos st) with 11 by lia.
  by rewrite (split_run_take _ _ _ _ _ Hs).
Qed.

Lemma m_star_dot_Some (fuel : nat) (st : mstate) :
  ∃ st', m_star (m Dot) fuel st Some = Some st' ∧ grp st' = grp st.
Proof.
  revert st. induction fuel as [|fuel IH]; intros [i s g]; cbn [m_star]; [by eexists|].
  destruct s as [|c s]; [by eexists|].
  cbn [m]. unfold m_cls at 1. cbn [rest].
  destruct (negb (Ascii.eqb c LF)); [|by eexists].
  cbn [advance rest pos grp String.length].
  assert ((String.length s <? S (String.length s))%nat = true) as -> by (apply Nat.ltb_lt; lia).
  destruct (IH (MState (i + 1) s g)) as (st' & H & Hg).
  cbn [m] in H. unfold advance; cbn [pos grp]. rewrite H. by exists st'.
Qed.

Lemma tail1_spec (st : mstate) :
  group1 <$> tail1 st = fst <$> split_run id_char 11 (rest st).
Proof.
  unfold tail1. rewrite m_id_run.
  destruct (split_run id_char 11 (rest st)) as [[run tl]|]; [|done].
  cbn [m]. destruct (m_star_dot_Some (S (String.length tl)) (MState (pos st + 11) tl (Some run)))
    as (st' & H & Hg).
  cbn [m rest] in H |- *. rewrite H. simpl. unfold group1. by rewrite Hg.
Qed.

Lemma tail2_spec (st : mstate) :
  group1 <$> tail2 st = fst <$> split_run id_char 11 (rest st).
Proof.
  unfold tail2. rewrite m_id_run.
  by destruct (split_run id_char 11 (rest st)) as [[run tl]|].
Qed.

Lemma m_lit_tail (l : string) (k : cont) (i : nat) (s : string) (g : option string) :
  (∀ st, group1 <$> k st = fst <$> split_run id_char 11 (rest st)) →
  group1 <$> m_lit l (MState i s g) k = id_after l s.
Proof.
  intros Hk. unfold m_lit, id_after; cbn [rest].
  destruct (strip_prefix l s) as [s'|]; [|done]. by rewrite Hk.
Qed.

Lemma fmap_or_else (a b : option mstate) :
  group1 <$> or_else a b = first_of (group1 <$> a) (group1 <$> b).
Proof. by destruct a. Qed.

Lemma match_at_pattern1 (i : nat) (s : string) :
  group1 <$> match_at pattern1 i s = hit1 s.
Proof.
  unfold match_at, pattern1, hit1. cbn [m]. rewrite fmap_or_else.
  by rewrite !(m_lit_tail _ _ _ _ _ tail1_spec).
Qed.

Lemma match_at_pattern3 (i : nat) (s : string) :
  group1 <$> match_at pattern3 i s = hit3 s.
Proof.
  unfold match_at, pattern3, hit3. cbn [m].
  by rewrite (m_lit_tail _ _ _ _ _ tail2_spec).
Qed.

Lemma match_at_pattern2 (i : nat) (s : string) :
  group1 <$> match_at pattern2 i s = hit2 s.
Proof.
  unfold match_at, pattern2, hit2. cbn [m]. rewrite !fmap_or_else.
  rewrite !(m_lit_tail _ _ _ _ _ tail2_spec). do 2 f_equal.
  unfold m_lit at 1; cbn [rest]. destruct (strip_prefix "youtu" s) as [s'|]; [|done].
  unfold m_cls, advance; cbn [rest pos grp]. destruct s' as [|c s']; [done|].
  destruct (negb (Ascii.eqb c LF)); [|done].
  by rewrite (m_lit_tail _ _ _ _ _ tail2_spec).
Qed.

Lemma search_scan (r : regex) (f : string → option string) :
  (∀ i s, group1 <$> match_at r i s = f s) →
  ∀ i s, group1 <$> search_from r i s = scan f s.
Proof.
  intros Hf i s. revert i. induction s as [|c s IH]; intros i; simpl;
    rewrite <- (Hf i); destruct (match_at r i _); simpl; auto.
Qed.

Lemma re_match_valid (s : string) :
  is_Some (re_match valid_id_pattern s) ↔ accepted s = true.
Proof.
  unfold re_match, match_at, valid_id_pattern, accepted. cbn [m pos Nat.eqb].
  rewrite m_rep_cls; cbn [rest].
  destruct (split_run id_char 11 s) as [[run tl]|]; cbn [rest].
  - destruct (at_eol tl); split; intros H; try done; by destruct H.
  - split; intros H; try done; by destruct H.
Qed.

(** [extract_video_id] without the engine. *)
Lemma extract_video_id_scan (s : string) :
  extract_video_id s =
  if accepted s then Some s
  else first_of (scan hit1 s) (first_of (scan hit2 s) (scan hit3 s)).
Proof.
  unfold extract_video_id. pose proof (re_match_valid s) as Hv.
  destruct (re_match valid_id_pattern s) as [mo|].
  - by rewrite (proj1 Hv (mk_is_Some _ _ eq_refl)).
  - destruct (accepted s); [by destruct (proj2 Hv eq_refl)|].
    unfold patterns, first_search, re_search.
    rewrite <- (search_scan _ _ match_at_pattern1 0 s).
    rewrite <- (search_scan _ _ match_at_pattern2 0 s).
    rewrite <- (search_scan _ _ match_at_pattern3 0 s).
    by repeat destruct (search_from _ 0 s).
Qed.

(** ** What [scan] and the three hits find *)

Lemma scan_here (f : string → option string) (s x : string) :
  f s = Some x → scan f s = Some x.
Proof. intros H. destruct s; simpl; by rewrite H. Qed.

Lemma scan_skip (f : string → option string) (c : ascii) (s : string) :
  f (String c s) = None → scan f (String c s) = scan f s.
Proof. intros H. simpl. by rewrite H. Qed.

Lemma scan_Some (f : string → option string) (s x : string) :
  scan f s = Some x → ∃ pre suf, s = pre +:+ suf ∧ f suf = Some x.
Proof.
  induction s as [|c s IH]; simpl.
  - destruct (f "") eqn:Hf; [|done]. intros [= ->]. by exists "", "".
  - destruct (f (String c s)) eqn:Hf.
    + intros [= ->]. by exists "", (String c s).
    + intros (pre & suf & -> & Hx)%IH. by exists (String c pre), suf.
Qed.

Lemma scan_None (f : string → option string) (s : string) :
  scan f s = None ↔ ∀ pre suf, s = pre +:+ suf → f suf = None.
Proof.
  split.
  - intros Hs pre. revert s Hs. induction pre as [|c pre IH]; intros s Hs suf ->.
    + simpl in *. destruct suf; simpl in Hs; by destruct (f _).
    + simpl in Hs. destruct (f (String c (pre +:+ suf))); [done|]. by eapply IH.
  - intros H. destruct (scan f s) as [x|] eqn:Hs; [|done].
    apply scan_Some in Hs as (pre & suf & -> & Hx). by rewrite (H pre suf) in Hx.
Qed.

Lemma id_after_Some (pre s id : string) :
  id_after pre s = Some id ↔ canonical id = true ∧ ∃ tl, s = pre +:+ id +:+ tl.
Proof.
  unfold id_after. split.
  - destruct (strip_prefix pre s) as [s'|] eqn:Hp; [|done].
    apply strip_prefix_spec in Hp as ->.
    destruct (split_run id_char 11 s') as [[run tl]|] eqn:Hs; [|done].
    intros [= <-]. apply split_run_is_canonical in Hs as [Hc ->]. eauto.
  - intros (Hc & tl & ->). rewrite strip_prefix_app.
    by rewrite split_run_canonical.
Qed.

Lemma id_after_app (a b s : string) :
  id_after (a +:+ b) s =
  match strip_prefix a s with
  | Some s1 => id_after b s1
  | None => None
  end.
Proof.
  unfold id_after. replace (strip_prefix (a +:+ b) s)
    with (match strip_prefix a s with Some s1 => strip_prefix b s1 | None => None end).
  { by destruct (strip_prefix a s). }
  revert s. induction a as [|x a IH]; intros s; simpl; [done|].
  destruct s as [|y s]; [done|]. by destruct (Ascii.eqb x y).
Qed.

Lemma hit1_lead (lead id tl : string) :
  lead = "v=" ∨ lead = "/" → canonical id = true → hit1 (lead +:+ id +:+ tl) = Some id.
Proof.
  intros Hl Hc. unfold hit1.
  assert (id_after lead (lead +:+ id +:+ tl) = Some id) as H
    by (apply id_after_Some; eauto).
  destruct Hl as [-> | ->]; [by rewrite H|].
  by rewrite <- H.
Qed.

Lemma hit1_Some (s id : string) :
  hit1 s = Some id →
  canonical id = true ∧ ∃ lead tl, (lead = "v=" ∨ lead = "/") ∧ s = lead +:+ id +:+ tl.
Proof.
  unfold hit1. destruct (id_after "v=" s) as [x|] eqn:H1; simpl.
  - intros [= ->]. apply id_after_Some in H1 as (Hc & tl & ->). eauto 6.
  - intros (Hc & tl & ->)%id_after_Some. eauto 6.
Qed.

(** A hit of the second or third pattern has a hit of the first one at
    its slash or at its [v=]. *)
Lemma hit_slash (a s x : string) :
  id_after (a +:+ "/") s = Some x → ∃ s1, s = a +:+ s1 ∧ hit1 s1 = Some x.
Proof.
  rewrite id_after_app. destruct (strip_prefix a s) as [s1|] eqn:Ha; [|done].
  apply strip_prefix_spec in Ha as ->. intros H. exists s1. split; [done|].
  apply id_after_Some in H as (Hc & tl & ->). apply hit1_lead; auto.
Qed.

Lemma hit2_hit1 (s x : string) :
  hit2 s = Some x → ∃ pre suf, s = pre +:+ suf ∧ hit1 suf = Some x.
Proof.
  unfold hit2. destruct (id_after "embed/" s) eqn:H1; cbn [first_of].
  { intros [= ->]. apply (hit_slash "embed") in H1 as (s1 & -> & H). eauto. }
  destruct (id_after "v/" s) eqn:H2; cbn [first_of].
  { intros [= ->]. apply (hit_slash "v") in H2 as (s1 & -> & H). eauto. }
  destruct (strip_prefix "youtu" s) as [[|c s']|] eqn:H3; try done.
  apply strip_prefix_spec in H3 as ->.
  destruct (negb (Ascii.eqb c LF)); [|done].
  intros (s1 & -> & H)%(hit_slash "be").
  exists ("youtu" +:+ String c "be"), s1. by rewrite !append_assoc.
Qed.

Lemma hit3_hit1 (s x : string) :
  hit3 s = Some x → ∃ pre suf, s = pre +:+ suf ∧ hit1 suf = Some x.
Proof.
  unfold hit3. change "watch?v=" with ("watch?" +:+ "v="). rewrite id_after_app.
  destruct (strip_prefix "watch?" s) as [s1|] eqn:Ha; [|done].
  apply strip_prefix_spec in Ha as ->. intros (Hc & tl & ->)%id_after_Some.
  exists "watch?", ("v=" +:+ x +:+ tl). split; [done|]. apply hit1_lead; auto.
Qed.

Lemma scan_later_dead (f : string → option string) (s : string) :
  (∀ s' x, f s' = Some x → ∃ pre suf, s' = pre +:+ suf ∧ hit1 suf = Some x) →
  scan hit1 s = None → scan f s = None.
Proof.
  intros Hf H1. destruct (scan f s) as [x|] eqn:Hs; [|done].
  apply scan_Some in Hs as (pre & suf & -> & Hx).
  apply Hf in Hx as (pre' & suf' & -> & Hx).
  rewrite scan_None in H1. rewrite (H1 (pre +:+ pre') suf') in Hx; [done|].
  by rewrite append_assoc.
Qed.

(** The second and the third pattern never decide: whenever one of them is
    found the first one is found too, and the first one is tried first. *)
Lemma extract_video_id_eq (s : string) :
  extract_video_id s = if accepted s then Some s else scan hit1 s.
Proof.
  rewrite extract_video_id_scan. destruct (accepted s); [done|].
  destruct (scan hit1 s) eqn:H1; [done|]. simpl.
  rewrite (scan_later_dead hit2 s hit2_hit1 H1).
  by rewrite (scan_later_dead hit3 s hit3_hit1 H1).
Qed.

Lemma scan_hit1_None (s : string) : scan hit1 s = None ↔ ¬ has_id_after s.
Proof.
  rewrite scan_None. split.
  - intros H (pre & lead & id & tl & Hl & Hc & ->).
    specialize (H pre _ eq_refl). by rewrite hit1_lead in H.
  - intros H pre suf ->. destruct (hit1 suf) as [x|] eqn:Hx; [|done].
    destruct H. apply hit1_Some in Hx as (Hc & lead & tl & Hl & ->).
    by exists pre, lead, x, tl.
Qed.

Lemma accepted_spec (s : string) :
  accepted s = true ↔
  canonical s = true ∨ ∃ id, canonical id = true ∧ s = id +:+ String LF "".
Proof.
  unfold accepted. split.
  - destruct (split_run id_char 11 s) as [[run tl]|] eqn:Hs; [|done].
    apply split_run_is_canonical in Hs as [Hc ->].
    destruct tl as [|c [|c' tl]]; simpl; try done.
    + rewrite append_empty_r. auto.
    + intros ->%Ascii.eqb_eq. eauto.
  - intros [Hc | (id & Hc & ->)].
    + rewrite <- (append_empty_r s). by rewrite split_run_canonical.
    + by rewrite split_run_canonical.
Qed.

Lemma canonical_length (s : string) : canonical s = true → String.length s = 11.
Proof. unfold canonical. by intros [?%Nat.eqb_eq _]%andb_true_iff. Qed.

(** What [extract_video_id] returns: 11 class characters, or the whole
    input when that is 11 class characters and a line feed. *)
Lemma extract_video_id_shape (s r : string) :
  extract_video_id s = Some r →
  canonical r = true ∨ (r = s ∧ ∃ id, canonical id = true ∧ s = id +:+ String LF "").
Proof.
  rewrite extract_video_id_eq. destruct (accepted s) eqn:Ha.
  - intros [= <-]. apply accepted_spec in Ha as [Hc|H]; auto.
  - intros (pre & suf & -> & H)%scan_Some. left. by apply hit1_Some in H as [Hc _].
Qed.

Lemma extract_video_id_None (s : string) :
  extract_video_id s = None ↔ accepted s = false ∧ ¬ has_id_after s.
Proof.
  rewrite extract_video_id_eq, <- scan_hit1_None.
  destruct (accepted s); split; try done; try (by intros [? ?]); by split.
Qed.

(** ** The normaliser on a few inputs *)

Example id_from_watch_url_with_more :
  extract_video_id "https://www.youtube.com/watch?v=dQw4w9WgXcQ&t=42s" = Some "dQw4w9WgXcQ".
Proof. reflexivity. Qed.

Example id_from_v_path :
  extract_video_id "https://www.youtube.com/v/dQw4w9WgXcQ" = Some "dQw4w9WgXcQ".
Proof. reflexivity. Qed.

Example first_of_two_runs :
  extract_video_id "/aaaaaaaaaaa/bbbbbbbbbbb" = Some "aaaaaaaaaaa".
Proof. reflexivity. Qed.

Example any_long_path_segment :
  extract_video_id "https://www.youtube.com/channel/UCabcdefghijklmnop" = Some "UCabcdefghi".
Proof. reflexivity. Qed.

Example twelve_characters : extract_video_id "dQw4w9WgXcQx" = None.
Proof. reflexivity. Qed.

Example playlist_url : extract_video_id "https://www.youtube.com/playlist?list=PL123" = None.
Proof. reflexivity. Qed.

(** ** The identifier normaliser *)

Ltac scan_to_hit :=
  cbn [String.append];
  repeat (rewrite scan_skip by reflexivity);
  apply scan_here.

(** C1. For every canonical 11-character ID, the watch URL, the short URL
    and the embed URL built from it normalise back to that ID. *)
Theorem url_round_trip (id : string) :
  canonical id = true →
  extract_video_id ("https://www.youtube.com/watch?v=" +:+ id) = Some id
  ∧ extract_video_id ("https://youtu.be/" +:+ id) = Some id
  ∧ extract_video_id ("https://www.youtube.com/embed/" +:+ id) = Some id.
Proof.
  intros Hc. rewrite !extract_video_id_eq.
  pose proof (hit1_lead "v=" id "" (or_introl eq_refl) Hc) as Hv.
  pose proof (hit1_lead "/" id "" (or_intror eq_refl) Hc) as Hs.
  rewrite append_empty_r in Hv, Hs.
  repeat split.
  - assert (accepted ("https://www.youtube.com/watch?v=" +:+ id) = false) as -> by reflexivity.
    scan_to_hit. exact Hv.
  - assert (accepted ("https://youtu.be/" +:+ id) = false) as -> by reflexivity.
    scan_to_hit. exact Hs.
  - assert (accepted ("https://www.youtube.com/embed/" +:+ id) = false) as -> by reflexivity.
    scan_to_hit. exact Hs.
Qed.

Lemma url_round_trip_witness :
  canonical "dQw4w9WgXcQ" = true
  ∧ extract_video_id ("https://www.youtube.com/watch?v=" +:+ "dQw4w9WgXcQ") = Some "dQw4w9WgXcQ"
  ∧ extract_video_id ("https://youtu.be/" +:+ "dQw4w9WgXcQ") = Some "dQw4w9WgXcQ"
  ∧ extract_video_id ("https://www.youtube.com/embed/" +:+ "dQw4w9WgXcQ") = Some "dQw4w9WgXcQ".
Proof. split; [reflexivity | apply (url_round_trip "dQw4w9WgXcQ"); reflexivity]. Defined.

(** C2. A string that the pattern of line 26 matches in its entirety, that
    is 11 characters of the class, is returned unchanged; so is every
    string that [re.match] accepts for that pattern. *)
Theorem valid_id_unchanged (s : string) :
  (canonical s = true → extract_video_id s = Some s)
  ∧ (is_Some (re_match valid_id_pattern s) → extract_video_id s = Some s).
Proof.
  split.
  - intros Hc. rewrite extract_video_id_eq.
    by rewrite (proj2 (accepted_spec s) (or_introl Hc)).
  - intros [mo H]. unfold extract_video_id. by rewrite H.
Qed.

Lemma valid_id_unchanged_witness :
  canonical "dQw4w9WgXcQ" = true
  ∧ is_Some (re_match valid_id_pattern "dQw4w9WgXcQ")
  ∧ extract_video_id "dQw4w9WgXcQ" = Some "dQw4w9WgXcQ".
Proof.
  assert (is_Some (re_match valid_id_pattern "dQw4w9WgXcQ")) as Hm
    by (eexists; vm_compute; reflexivity).
  split; [reflexivity|]. split; [exact Hm|].
  destruct (valid_id_unchanged "dQw4w9WgXcQ") as [H1 H2].
  generalize (H2 Hm). intros _. apply H1. reflexivity.
Defined.

(** C8. The input made of 11 class characters and a line feed is returned
    whole: 12 characters, the last of them outside the class. *)
Theorem line_feed_id_returned :
  extract_video_id ("dQw4w9WgXcQ" +:+ String LF "") = Some ("dQw4w9WgXcQ" +:+ String LF "")
  ∧ String.length ("dQw4w9WgXcQ" +:+ String LF "") = 12
  ∧ canonical ("dQw4w9WgXcQ" +:+ String LF "") = false.
Proof. by vm_compute. Qed.

(** ** The extraction gateway *)

Section Gateway.

Variable ydl : capability.
Variable video_id : string.

Abbreviation video_url := ("https://www.youtube.com/watch?v=" +:+ video_id).

Lemma with_video_info_dict (d : gmap string pyval) (stream_url : pyval) :
  with_video_info (VDict d) stream_url = Ok (stream_url, VDict (video_info_of d), VNone).
Proof. reflexivity. Qed.

Lemma try_body_raise (e : exn) :
  ydl ydl_opts video_url false = Raise e → try_body ydl video_id = Raise e.
Proof. intros H. unfold try_body. by rewrite H. Qed.

(** The [try] body on an info dict. *)
Lemma try_body_dict (d : gmap string pyval) :
  ydl ydl_opts video_url false = Ok (VDict d) →
  try_body ydl video_id =
  match d !! "url" with
  | Some stream_url => Ok (stream_url, VDict (video_info_of d), VNone)
  | None =>
      let formats := default (VList []) (d !! "formats") in
      if truthy formats then
        first ← py_getitem0 formats;
        stream_url ← py_getitem first "url";
        Ok (stream_url, VDict (video_info_of d), VNone)
      else Ok (failure "No stream URL found in video info")
  end.
Proof.
  intros H. unfold try_body. rewrite H. cbn [mbind outcome_bind py_in py_getitem py_get].
  destruct (d !! "url") as [u|] eqn:Hu.
  - rewrite bool_decide_eq_true_2 by eauto. reflexivity.
  - rewrite bool_decide_eq_false_2 by (by intros [? ?]).
    destruct (truthy _); [|done].
    destruct (py_getitem0 _) as [first|]; [|done]. cbn [mbind outcome_bind].
    by destruct (py_getitem first "url").
Qed.

Lemma gateway_raise (e : exn) :
  ydl ydl_opts video_url false = Raise e → get_youtube_stream_url ydl video_id = handle e.
Proof. intros H. unfold get_youtube_stream_url. by rewrite (try_body_raise e H). Qed.

Lemma handle_Ok (e : exn) (t : triple) : handle e = Ok t → failure_shape t.
Proof.
  unfold handle, failure_shape.
  destruct (exn_class_of e); cbn [derives_from_Exception]; repeat case_match;
    intros [= <-]; eexists; (split; [|reflexivity]); done.
Qed.

Lemma handle_Raise (e e' : exn) :
  handle e = Raise e' → e' = e ∧ derives_from_Exception (exn_class_of e) = false.
Proof.
  unfold handle.
  destruct (exn_class_of e); cbn [derives_from_Exception]; repeat case_match;
    by intros [= <-].
Qed.

Lemma handle_caught (e : exn) :
  derives_from_Exception (exn_class_of e) = true → ∃ t, handle e = Ok t ∧ failure_shape t.
Proof.
  intros Hd. destruct (handle e) as [t|e'] eqn:Hh.
  - exists t. split; [done|]. by apply (handle_Ok e).
  - apply handle_Raise in Hh as [_ Hh]. congruence.
Qed.

Lemma handle_uncaught (e : exn) :
  derives_from_Exception (exn_class_of e) = false → handle e = Raise e.
Proof. unfold handle. by destruct (exn_class_of e). Qed.

Lemma py_getitem0_raise (v : pyval) (e : exn) :
  py_getitem0 v = Raise e → derives_from_Exception (exn_class_of e) = true.
Proof. destruct v as [| | |[|]|[|]|]; by intros [= <-]. Qed.

Lemma py_getitem_raise (v : pyval) (key : string) (e : exn) :
  py_getitem v key = Raise e → derives_from_Exception (exn_class_of e) = true.
Proof. destruct v as [| | | | |d]; cbn; try (by intros [= <-]). by case_match; intros [= <-]. Qed.

(** When the [try] body returns, it returns the success triple of an info
    dict that has a stream URL, or the failure of lines 69 and 70. *)
Lemma try_body_Ok_inv (t : triple) :
  try_body ydl video_id = Ok t →
  (∃ d stream_url,
      ydl ydl_opts video_url false = Ok (VDict d)
      ∧ stream_source d = Some stream_url
      ∧ t = (stream_url, VDict (video_info_of d), VNone))
  ∨ t = failure "No stream URL found in video info".
Proof.
  destruct (ydl ydl_opts video_url false) as [info|e] eqn:Hy.
  2: { by rewrite (try_body_raise e Hy). }
  destruct info as [| | | | |d].
  6: { rewrite (try_body_dict d Hy).
       destruct (d !! "url") as [u|] eqn:Hu.
       { intros [= <-]. left. exists d, u. unfold stream_source. by rewrite Hu. }
       cbn zeta. destruct (d !! "formats") as [fm|] eqn:Hf; cbn [default from_option id truthy];
         [|intros [= <-]; by right].
       destruct fm as [|[]|z|[|c s]|[|[| | | | |f] l]|fd]; cbn [truthy py_getitem0];
         try (intros [= <-]; by right); try done.
       - by destruct (negb (z =? 0)%Z); [|intros [= <-]; right].
       - cbn [mbind outcome_bind py_getitem]. destruct (f !! "url") as [u|] eqn:Hfu; [|done].
         intros [= <-]. left. exists d, u. unfold stream_source. by rewrite Hu, Hf.
       - by destruct (negb (bool_decide (fd = ∅))); [|intros [= <-]; right]. }
  all: unfold try_body; rewrite Hy; cbn [mbind outcome_bind py_in]; try done.
  all: by case_match.
Qed.

Lemma try_body_Ok_shape (t : triple) :
  try_body ydl video_id = Ok t → success_shape t ∨ failure_shape t.
Proof.
  intros [(d & u & _ & _ & ->) | ->]%try_body_Ok_inv.
  - left. by eexists _, _.
  - right. eexists. by split; [|reflexivity].
Qed.

(** An exception that leaves the [try] body is the capability's, or one of
    the code's own, which all derive from [Exception]. *)
Lemma try_body_Raise_inv (e : exn) :
  try_body ydl video_id = Raise e →
  ydl ydl_opts video_url false = Raise e
  ∨ derives_from_Exception (exn_class_of e) = true.
Proof.
  destruct (ydl ydl_opts video_url false) as [info|e0] eqn:Hy.
  2: { rewrite (try_body_raise e0 Hy). intros [= <-]. by left. }
  intros Hb. right. revert Hb. destruct info as [| | | | |d].
  6: { rewrite (try_body_dict d Hy). destruct (d !! "url"); [done|]. cbn zeta.
       destruct (truthy _); [|done].
       destruct (py_getitem0 _) as [first|e0] eqn:H0; cbn [mbind outcome_bind].
       - destruct (py_getitem first "url") as [u|e1] eqn:H1; [done|].
         intros [= <-]. by apply py_getitem_raise in H1.
       - intros [= <-]. by apply py_getitem0_raise in H0. }
  all: unfold try_body; rewrite Hy; cbn [mbind outcome_bind py_in]; try (by intros [= <-]).
  all: case_match; cbn; by intros [= <-].
Qed.

(** A triple that the gateway returns has one of the two shapes. *)
Lemma gateway_Ok_shape (t : triple) :
  get_youtube_stream_url ydl video_id = Ok t → success_shape t ∨ failure_shape t.
Proof.
  unfold get_youtube_stream_url.
  destruct (try_body ydl video_id) as [t'|e] eqn:Hb.
  - intros [= <-]. by apply try_body_Ok_shape.
  - intros Hh. right. by apply (handle_Ok e).
Qed.

(** What the gateway lets through is an exception of the capability that
    does not derive from [Exception]. *)
Lemma gateway_Raise_inv (e : exn) :
  get_youtube_stream_url ydl video_id = Raise e →
  ydl ydl_opts video_url false = Raise e
  ∧ derives_from_Exception (exn_class_of e) = false.
Proof.
  unfold get_youtube_stream_url.
  destruct (try_body ydl video_id) as [t'|e0] eqn:Hb; [done|].
  intros [-> Hd]%handle_Raise. split; [|done].
  apply try_body_Raise_inv in Hb as [Hy | Ht]; [done | congruence].
Qed.

Lemma gateway_uncaught (e : exn) :
  ydl ydl_opts video_url false = Raise e →
  derives_from_Exception (exn_class_of e) = false →
  get_youtube_stream_url ydl video_id = Raise e.
Proof. intros Hy Hd. rewrite (gateway_raise e Hy). by apply handle_uncaught. Qed.

Lemma get_youtube_stream_url_success (stream_url video_info : pyval) :
  get_youtube_stream_url ydl video_id = Ok (stream_url, video_info, VNone) →
  ∃ d, ydl ydl_opts video_url false = Ok (VDict d)
       ∧ stream_source d = Some stream_url
       ∧ video_info = VDict (video_info_of d).
Proof.
  unfold get_youtube_stream_url.
  destruct (try_body ydl video_id) as [t|e] eqn:Hb.
  - intros [= ->]. apply try_body_Ok_inv in Hb as [(d & u & Hy & Hs & [= -> ->]) | [=]].
    eauto.
  - intros (msg & _ & [=])%handle_Ok.
Qed.

(** The error of a result is [None] or a string that is not empty. *)
Lemma get_youtube_stream_url_error (stream_url video_info error : pyval) :
  get_youtube_stream_url ydl video_id = Ok (stream_url, video_info, error) →
  error ≠ VNone → truthy error = true.
Proof.
  intros Hr. destruct (gateway_Ok_shape _ Hr) as [(u & vi & [= _ _ ->]) | (msg & Hm & [= _ _ ->])].
  - done.
  - intros _. cbn. by destruct msg.
Qed.

End Gateway.

Section GatewayClaims.

Variable ydl : capability.
Variable video_id : string.

Abbreviation url_of_id := ("https://www.youtube.com/watch?v=" +:+ video_id).

(** C3, as amended.  When the capability raises a [DownloadError], the
    reason is chosen by the first of "Video unavailable", "Private video"
    and "Sign in to confirm your age" that the message contains, in this
    order, and is otherwise the generic reason carrying the message; an
    exception of any other class that derives from [Exception] gives the
    unexpected-error reason carrying [str(e)]; an exception of a class
    that does not derive from [Exception] gives no reason and goes on to
    the caller. *)
Theorem download_error_classification (e : exn) :
  ydl ydl_opts url_of_id false = Raise e →
  let error_message := exn_str e in
  let result := get_youtube_stream_url ydl video_id in
  (exn_class_of e = DownloadError →
     (str_in "Video unavailable" error_message = true →
        result = Ok (VNone, VNone, VStr "Video is unavailable or has been removed"))
     ∧ (str_in "Video unavailable" error_message = false →
        str_in "Private video" error_message = true →
        result = Ok (VNone, VNone, VStr "This video is private"))
     ∧ (str_in "Video unavailable" error_message = false →
        str_in "Private video" error_message = false →
        str_in "Sign in to confirm your age" error_message = true →
        result = Ok (VNone, VNone, VStr "Age-restricted video"))
     ∧ (str_in "Video unavailable" error_message = false →
        str_in "Private video" error_message = false →
        str_in "Sign in to confirm your age" error_message = false →
        result = Ok (VNone, VNone,
                     VStr ("Error downloading video information: " +:+ error_message))))
  ∧ (exn_class_of e ≠ DownloadError →
     derives_from_Exception (exn_class_of e) = true →
     result = Ok (VNone, VNone, VStr ("Unexpected error: " +:+ error_message)))
  ∧ (derives_from_Exception (exn_class_of e) = false → result = Raise e).
Proof.
  intros Hy error_message result. subst error_message result.
  rewrite (gateway_raise _ _ e Hy). unfold handle.
  split; [|split].
  - intros ->. repeat split; intros; by repeat match goal with H : str_in _ _ = _ |- _ => rewrite H; clear H end.
  - intros Hc Hd. by destruct (exn_class_of e).
  - intros Hd. by destruct (exn_class_of e).
Qed.

(** C4. On an info dict the stream URL is the top-level [url] when there
    is one; without it, the [url] of the first entry of [formats]; and
    without a top-level [url] and with [formats] absent or empty the
    result is the failure "No stream URL found in video info".  For the
    result with the two formats "https://cdn/f0" and "https://cdn/f1" and
    no top-level [url], the stream URL is "https://cdn/f0". *)
Theorem stream_url_selection :
  (∀ d : gmap string pyval,
     ydl ydl_opts url_of_id false = Ok (VDict d) →
     let result := get_youtube_stream_url ydl video_id in
     (∀ stream_url, d !! "url" = Some stream_url →
        result = Ok (stream_url, VDict (video_info_of d), VNone))
     ∧ (∀ first others stream_url,
          d !! "url" = None →
          d !! "formats" = Some (VList (VDict first :: others)) →
          first !! "url" = Some stream_url →
          result = Ok (stream_url, VDict (video_info_of d), VNone))
     ∧ (d !! "url" = None →
        d !! "formats" = None ∨ d !! "formats" = Some (VList []) →
        result = Ok (VNone, VNone, VStr "No stream URL found in video info")))
  ∧ get_youtube_stream_url (returning (VDict two_formats)) video_id =
    Ok (VStr "https://cdn/f0", VDict (video_info_of two_formats), VNone).
Proof.
  split.
  - intros d Hy result. subst result. unfold get_youtube_stream_url.
    rewrite (try_body_dict _ _ d Hy). repeat split.
    + by intros u ->.
    + intros first others u -> -> Hu. cbn. by rewrite Hu.
    + by intros -> [-> | ->].
  - unfold get_youtube_stream_url.
    by rewrite (try_body_dict (returning (VDict two_formats)) video_id two_formats eq_refl).
Qed.

(** C10. Without a top-level [url] and with a non-empty [formats] list
    whose first entry has no [url], the result is an unexpected-error
    failure (for a first entry that is a dict, the [KeyError] on the key):
    not the no-stream-URL failure, and no success from a later entry. *)
Theorem first_format_without_url (d : gmap string pyval) (first : pyval) (others : list pyval) :
  ydl ydl_opts url_of_id false = Ok (VDict d) →
  d !! "url" = None →
  d !! "formats" = Some (VList (first :: others)) →
  (∀ f, first = VDict f → f !! "url" = None) →
  let result := get_youtube_stream_url ydl video_id in
  (∃ cause, result = Ok (VNone, VNone, VStr ("Unexpected error: " +:+ cause)))
  ∧ (∀ f, first = VDict f → result = Ok (VNone, VNone, VStr "Unexpected error: 'url'"))
  ∧ result ≠ Ok (VNone, VNone, VStr "No stream URL found in video info")
  ∧ (∀ stream_url video_info, result ≠ Ok (stream_url, video_info, VNone)).
Proof.
  intros Hy Hu Hf Hfirst result.
  assert (∃ cause, result = Ok (failure ("Unexpected error: " +:+ cause))
                   ∧ ∀ f, first = VDict f → cause = "'url'") as (cause & Hr & Hc).
  { subst result. unfold get_youtube_stream_url.
    rewrite (try_body_dict _ _ d Hy), Hu, Hf. cbn.
    destruct first as [| | | | |f]; cbn; try (eexists; split; [reflexivity|done]).
    rewrite (Hfirst f eq_refl). cbn. eexists; split; [reflexivity|done]. }
  rewrite Hr. unfold failure. repeat split.
  - by exists cause.
  - intros f Hd. by rewrite (Hc f Hd).
  - by intros [= H].
  - by intros u vi [= _ _ H].
Qed.

End GatewayClaims.

Lemma video_info_of_lookup (d : gmap string pyval) :
  video_info_of d !! "title" = Some (default (VStr "Unknown") (d !! "title"))
  ∧ video_info_of d !! "description" = Some (default (VStr "") (d !! "description"))
  ∧ video_info_of d !! "channel_name" = Some (default (VStr "Unknown") (d !! "channel"))
  ∧ video_info_of d !! "duration" = Some (default (VInt 0) (d !! "duration"))
  ∧ video_info_of d !! "thumbnail" = Some (default (VStr "") (d !! "thumbnail")).
Proof. unfold video_info_of. repeat split; by simplify_map_eq. Qed.

(** ** The request handler *)

Lemma extract_video_id_truthy (s r : string) :
  extract_video_id s = Some r → truthy (VStr r) = true.
Proof.
  intros [Hc | (-> & id & Hc & ->)]%extract_video_id_shape.
  - apply canonical_length in Hc. by destruct r.
  - apply canonical_length in Hc. by destruct id.
Qed.

Lemma get_stream_invalid (percent_decode : string → string) (ydl : capability) (path : string) :
  extract_video_id (unquote percent_decode path) = None →
  get_stream percent_decode ydl path = Ok invalid_input.
Proof. intros H. unfold get_stream. by rewrite H. Qed.

Lemma get_stream_failure (percent_decode : string → string) (ydl : capability)
    (path video_id : string) (stream_url video_info error : pyval) :
  extract_video_id (unquote percent_decode path) = Some video_id →
  get_youtube_stream_url ydl video_id = Ok (stream_url, video_info, error) →
  error ≠ VNone →
  get_stream percent_decode ydl path =
  Ok (Response {[ "success" := VBool false; "error" := error; "video_id" := VStr video_id ]}
               404).
Proof.
  intros Hid Hr He. unfold get_stream. rewrite Hid, (extract_video_id_truthy _ _ Hid), Hr.
  cbn. by rewrite (get_youtube_stream_url_error _ _ _ _ _ Hr He).
Qed.

Lemma get_stream_success (percent_decode : string → string) (ydl : capability)
    (path video_id : string) (stream_url video_info : pyval) :
  extract_video_id (unquote percent_decode path) = Some video_id →
  get_youtube_stream_url ydl video_id = Ok (stream_url, video_info, VNone) →
  get_stream percent_decode ydl path =
  Ok (Response {[ "success" := VBool true;
                  "video_id" := VStr video_id;
                  "stream_url" := stream_url;
                  "video_info" := video_info;
                  "cache_info" := VStr "Stream URL expires after maximum 12 hours" ]}
               200).
Proof.
  intros Hid Hr. unfold get_stream. by rewrite Hid, (extract_video_id_truthy _ _ Hid), Hr.
Qed.

(** C5. The metadata dict of a success holds, under each of its five
    keys, what the info dict holds under the matching key, and the default
    when the info dict has no such key: "Unknown" for the title and the
    channel name, the empty string for the description and the thumbnail,
    0 for the duration.  For the result with only a [url] and the title
    "T", the response's [video_info] has the four other defaults. *)
Theorem metadata_defaults :
  (∀ ydl video_id stream_url video_info,
     get_youtube_stream_url ydl video_id = Ok (stream_url, video_info, VNone) →
     ∃ d m,
       ydl ydl_opts ("https://www.youtube.com/watch?v=" +:+ video_id) false = Ok (VDict d)
       ∧ video_info = VDict m
       ∧ m !! "title" = Some (default (VStr "Unknown") (d !! "title"))
       ∧ m !! "description" = Some (default (VStr "") (d !! "description"))
       ∧ m !! "channel_name" = Some (default (VStr "Unknown") (d !! "channel"))
       ∧ m !! "duration" = Some (default (VInt 0) (d !! "duration"))
       ∧ m !! "thumbnail" = Some (default (VStr "") (d !! "thumbnail")))
  ∧ (∀ percent_decode path video_id,
       extract_video_id (unquote percent_decode path) = Some video_id →
       ∃ r m,
         get_stream percent_decode (returning (VDict url_and_title)) path = Ok r
         ∧ status r = 200
         ∧ body r !! "video_info" = Some (VDict m)
         ∧ m !! "title" = Some (VStr "T")
         ∧ m !! "description" = Some (VStr "")
         ∧ m !! "channel_name" = Some (VStr "Unknown")
         ∧ m !! "duration" = Some (VInt 0)
         ∧ m !! "thumbnail" = Some (VStr "")).
Proof.
  split.
  - intros ydl video_id u vi (d & Hy & _ & ->)%get_youtube_stream_url_success.
    exists d, (video_info_of d). split; [done|]. split; [done|].
    apply video_info_of_lookup.
  - intros pd path video_id Hid.
    assert (get_youtube_stream_url (returning (VDict url_and_title)) video_id =
            Ok (VStr "https://cdn/stream", VDict (video_info_of url_and_title), VNone)) as Hr.
    { unfold get_youtube_stream_url.
      by rewrite (try_body_dict (returning (VDict url_and_title)) video_id url_and_title eq_refl). }
    eexists _, (video_info_of url_and_title).
    split; [exact (get_stream_success _ _ _ _ _ _ Hid Hr)|].
    split; [done|]. split; [done|]. by vm_compute.
Qed.

Lemma metadata_defaults_witness :
  (∃ d m,
     returning (VDict url_and_title) ydl_opts
       ("https://www.youtube.com/watch?v=" +:+ "dQw4w9WgXcQ") false = Ok (VDict d)
     ∧ VDict (video_info_of url_and_title) = VDict m
     ∧ m !! "title" = Some (default (VStr "Unknown") (d !! "title"))
     ∧ m !! "description" = Some (default (VStr "") (d !! "description"))
     ∧ m !! "channel_name" = Some (default (VStr "Unknown") (d !! "channel"))
     ∧ m !! "duration" = Some (default (VInt 0) (d !! "duration"))
     ∧ m !! "thumbnail" = Some (default (VStr "") (d !! "thumbnail")))
  ∧ ∃ r m,
      get_stream (fun s => s) (returning (VDict url_and_title)) "dQw4w9WgXcQ" = Ok r
      ∧ status r = 200
      ∧ body r !! "video_info" = Some (VDict m)
      ∧ m !! "title" = Some (VStr "T")
      ∧ m !! "description" = Some (VStr "")
      ∧ m !! "channel_name" = Some (VStr "Unknown")
      ∧ m !! "duration" = Some (VInt 0)
      ∧ m !! "thumbnail" = Some (VStr "").
Proof.
  destruct metadata_defaults as [H1 H2]. split.
  - apply (H1 (returning (VDict url_and_title)) "dQw4w9WgXcQ" (VStr "https://cdn/stream")).
    vm_compute. reflexivity.
  - apply (H2 (fun s => s) "dQw4w9WgXcQ" "dQw4w9WgXcQ"). reflexivity.
Defined.

(** An input that the test of line 26 rejects and in which no [v=] and
    no slash is followed by 11 class characters gives [None], "not a url"
    among them; and on [None] the handler answers 400 with the
    invalid-input body. *)
Theorem no_id_is_bad_request :
  (∀ s, accepted s = false → ¬ has_id_after s → extract_video_id s = None)
  ∧ extract_video_id "not a url" = None
  ∧ (∀ percent_decode ydl path,
       extract_video_id (unquote percent_decode path) = None →
       get_stream percent_decode ydl path =
       Ok (Response {[ "success" := VBool false;
                       "error" := VStr "Invalid YouTube video ID or URL" ]} 400))
  ∧ (∀ percent_decode ydl,
       get_stream percent_decode ydl "not a url" =
       Ok (Response {[ "success" := VBool false;
                       "error" := VStr "Invalid YouTube video ID or URL" ]} 400)).
Proof.
  split; [|split; [|split]].
  - intros s Ha Hn. by apply extract_video_id_None.
  - reflexivity.
  - intros pd ydl path H. exact (get_stream_invalid pd ydl path H).
  - intros pd ydl. by apply get_stream_invalid.
Qed.

Lemma not_a_url_has_no_id : ¬ has_id_after "not a url".
Proof. apply scan_hit1_None. reflexivity. Qed.

Lemma no_id_is_bad_request_witness :
  extract_video_id "not a url" = None
  ∧ get_stream (fun s => s) (raising (Exn OtherException "unused")) "not a url" =
    Ok (Response {[ "success" := VBool false;
                    "error" := VStr "Invalid YouTube video ID or URL" ]} 400).
Proof.
  destruct no_id_is_bad_request as (H1 & _ & H3 & _). split.
  - apply (H1 "not a url"); [reflexivity | exact not_a_url_has_no_id].
  - apply (H3 (fun s => s) (raising (Exn OtherException "unused")) "not a url"). reflexivity.
Defined.




(** C9, as amended.  The gateway lets no exception through that derives
    from [Exception], the capability's or its own: what it lets through
    is an exception of the capability that does not derive from
    [Exception], and only that.  What it returns is one of two triples:
    [(stream_url, video_info, None)] with [video_info] a dict and
    [stream_url] the value that the info dict holds for it, whatever that
    value is; or [(None, None, error)] with [error] a string that is not
    empty; never both. *)
Theorem result_shapes :
  ∀ ydl video_id,
    (∀ e, get_youtube_stream_url ydl video_id = Raise e
          ↔ ydl ydl_opts ("https://www.youtube.com/watch?v=" +:+ video_id) false = Raise e
            ∧ derives_from_Exception (exn_class_of e) = false)
    ∧ ((∀ e, ydl ydl_opts ("https://www.youtube.com/watch?v=" +:+ video_id) false = Raise e →
             derives_from_Exception (exn_class_of e) = true) →
       ∃ t, get_youtube_stream_url ydl video_id = Ok t)
    ∧ (∀ t, get_youtube_stream_url ydl video_id = Ok t →
         ((∃ stream_url video_info, t = (stream_url, VDict video_info, VNone))
          ∨ (∃ error, error ≠ "" ∧ t = (VNone, VNone, VStr error)))
         ∧ ¬ ((∃ stream_url video_info, t = (stream_url, VDict video_info, VNone))
              ∧ (∃ error, t = (VNone, VNone, VStr error)))
         ∧ (∀ stream_url video_info,
              t = (stream_url, video_info, VNone) →
              ∃ d, ydl ydl_opts ("https://www.youtube.com/watch?v=" +:+ video_id) false
                   = Ok (VDict d)
                   ∧ stream_source d = Some stream_url)).
Proof.
  intros ydl video_id. split; [|split].
  - intros e. split; [apply gateway_Raise_inv|]. intros [Hy Hd]. by apply gateway_uncaught.
  - intros Hc. destruct (get_youtube_stream_url ydl video_id) as [t|e] eqn:Hr; [by exists t|].
    apply gateway_Raise_inv in Hr as [Hy Hd]. rewrite (Hc e Hy) in Hd. discriminate.
  - intros t Ht. split; [exact (gateway_Ok_shape _ _ t Ht)|]. split.
    + intros [(u & vi & ->) (msg & [=])].
    + intros u vi ->. apply get_youtube_stream_url_success in Ht as (d & Hy & Hsrc & _). eauto.
Qed.

Lemma result_shapes_witness :
  get_youtube_stream_url (raising (Exn SystemExit "0")) "dQw4w9WgXcQ" = Raise (Exn SystemExit "0")
  ∧ (∃ t, get_youtube_stream_url (raising (Exn OtherException "timed out")) "dQw4w9WgXcQ" = Ok t)
  ∧ ∃ d, returning (VDict two_formats) ydl_opts
           ("https://www.youtube.com/watch?v=" +:+ "dQw4w9WgXcQ") false = Ok (VDict d)
         ∧ stream_source d = Some (VStr "https://cdn/f0").
Proof.
  split; [|split].
  - destruct (result_shapes (raising (Exn SystemExit "0")) "dQw4w9WgXcQ") as (H & _ & _).
    apply (proj2 (H (Exn SystemExit "0"))). split; reflexivity.
  - destruct (result_shapes (raising (Exn OtherException "timed out")) "dQw4w9WgXcQ")
      as (_ & H & _).
    apply H. intros e [= <-]. reflexivity.
  - destruct (result_shapes (returning (VDict two_formats)) "dQw4w9WgXcQ") as (_ & _ & H).
    destruct (H (VStr "https://cdn/f0", VDict (video_info_of two_formats), VNone))
      as (_ & _ & Hs).
    + vm_compute. reflexivity.
    + apply (Hs (VStr "https://cdn/f0") (VDict (video_info_of two_formats))). reflexivity.
Defined.

(** C9, as stated, fails twice: an info dict whose [url] is [None] gives a
    triple with no stream URL and no error, and a [SystemExit] of the
    capability is not caught. *)
Lemma null_url_shape_counterexample :
  get_youtube_stream_url (returning (VDict null_url)) "dQw4w9WgXcQ" =
    Ok (VNone, VDict (video_info_of null_url), VNone)
  ∧ get_youtube_stream_url (raising (Exn SystemExit "0")) "dQw4w9WgXcQ" =
    Raise (Exn SystemExit "0")
  ∧ ¬ (∀ ydl video_id,
         ∃ t, get_youtube_stream_url ydl video_id = Ok t
              ∧ ((∃ stream_url video_info,
                    stream_url ≠ VNone ∧ video_info ≠ VNone
                    ∧ t = (stream_url, video_info, VNone))
                 ∨ (∃ error, error ≠ "" ∧ t = (VNone, VNone, VStr error)))).
Proof.
  assert (get_youtube_stream_url (returning (VDict null_url)) "dQw4w9WgXcQ" =
          Ok (VNone, VDict (video_info_of null_url), VNone)) as Hr.
  { unfold get_youtube_stream_url.
    by rewrite (try_body_dict (returning (VDict null_url)) "dQw4w9WgXcQ" null_url eq_refl). }
  split; [exact Hr|]. split; [reflexivity|].
  intros H. destruct (H (returning (VDict null_url)) "dQw4w9WgXcQ") as (t & Ht & Hs).
  rewrite Hr in Ht. injection Ht as <-.
  destruct Hs as [(u & vi & Hu & _ & [= <- _]) | (msg & _ & [=])]. by destruct Hu.
Qed.

(** C3, as stated, fails: a [KeyboardInterrupt] raised by the capability
    is of a class other than [DownloadError], and no reason is yielded
    for it: it goes on to the caller. *)
Lemma keyboard_interrupt_counterexample :
  exn_class_of (Exn KeyboardInterrupt "") ≠ DownloadError
  ∧ get_youtube_stream_url (raising (Exn KeyboardInterrupt "")) "dQw4w9WgXcQ" =
    Raise (Exn KeyboardInterrupt "")
  ∧ ¬ (∀ ydl video_id e,
         ydl ydl_opts ("https://www.youtube.com/watch?v=" +:+ video_id) false = Raise e →
         exn_class_of e ≠ DownloadError →
         get_youtube_stream_url ydl video_id =
         Ok (VNone, VNone, VStr ("Unexpected error: " +:+ exn_str e))).
Proof.
  split; [discriminate|]. split; [reflexivity|].
  intros H.
  specialize (H (raising (Exn KeyboardInterrupt "")) "dQw4w9WgXcQ" (Exn KeyboardInterrupt "")
                eq_refl).
  discriminate H. discriminate.
Qed.

(** Witnesses of the claims on the gateway. *)
Lemma download_error_classification_witness :
  get_youtube_stream_url (raising (Exn DownloadError "ERROR: Video unavailable")) "dQw4w9WgXcQ"
    = Ok (VNone, VNone, VStr "Video is unavailable or has been removed")
  ∧ get_youtube_stream_url (raising (Exn DownloadError "ERROR: Private video")) "dQw4w9WgXcQ"
    = Ok (VNone, VNone, VStr "This video is private")
  ∧ get_youtube_stream_url
      (raising (Exn DownloadError "ERROR: Sign in to confirm your age")) "dQw4w9WgXcQ"
    = Ok (VNone, VNone, VStr "Age-restricted video")
  ∧ get_youtube_stream_url (raising (Exn DownloadError "ERROR: HTTP Error 429")) "dQw4w9WgXcQ"
    = Ok (VNone, VNone, VStr "Error downloading video information: ERROR: HTTP Error 429")
  ∧ get_youtube_stream_url (raising (Exn OtherException "timed out")) "dQw4w9WgXcQ"
    = Ok (VNone, VNone, VStr "Unexpected error: timed out")
  ∧ get_youtube_stream_url (raising (Exn GeneratorExit "")) "dQw4w9WgXcQ"
    = Raise (Exn GeneratorExit "").
Proof.
  split; [|split; [|split; [|split; [|split]]]].
  - destruct (download_error_classification
                (raising (Exn DownloadError "ERROR: Video unavailable")) "dQw4w9WgXcQ"
                (Exn DownloadError "ERROR: Video unavailable") eq_refl) as [H _].
    destruct (H eq_refl) as (H1 & _). apply H1. reflexivity.
  - destruct (download_error_classification
                (raising (Exn DownloadError "ERROR: Private video")) "dQw4w9WgXcQ"
                (Exn DownloadError "ERROR: Private video") eq_refl) as [H _].
    destruct (H eq_refl) as (_ & H2 & _). apply H2; reflexivity.
  - destruct (download_error_classification
                (raising (Exn DownloadError "ERROR: Sign in to confirm your age"))
                "dQw4w9WgXcQ"
                (Exn DownloadError "ERROR: Sign in to confirm your age") eq_refl) as [H _].
    destruct (H eq_refl) as (_ & _ & H3 & _). apply H3; reflexivity.
  - destruct (download_error_classification
                (raising (Exn DownloadError "ERROR: HTTP Error 429")) "dQw4w9WgXcQ"
                (Exn DownloadError "ERROR: HTTP Error 429") eq_refl) as [H _].
    destruct (H eq_refl) as (_ & _ & _ & H4). apply H4; reflexivity.
  - destruct (download_error_classification
                (raising (Exn OtherException "timed out")) "dQw4w9WgXcQ"
                (Exn OtherException "timed out") eq_refl) as (_ & H & _).
    apply H; [simpl; discriminate | reflexivity].
  - destruct (download_error_classification
                (raising (Exn GeneratorExit "")) "dQw4w9WgXcQ"
                (Exn GeneratorExit "") eq_refl) as (_ & _ & H).
    apply H. reflexivity.
Defined.

Lemma stream_url_selection_witness :
  get_youtube_stream_url (returning (VDict url_and_title)) "dQw4w9WgXcQ"
    = Ok (VStr "https://cdn/stream", VDict (video_info_of url_and_title), VNone)
  ∧ get_youtube_stream_url (returning (VDict two_formats)) "dQw4w9WgXcQ"
    = Ok (VStr "https://cdn/f0", VDict (video_info_of two_formats), VNone)
  ∧ get_youtube_stream_url (returning (VDict {[ "title" := VStr "T" ]})) "dQw4w9WgXcQ"
    = Ok (VNone, VNone, VStr "No stream URL found in video info").
Proof.
  split; [|split].
  - destruct (stream_url_selection (returning (VDict url_and_title)) "dQw4w9WgXcQ") as [H _].
    destruct (H url_and_title eq_refl) as (H1 & _). apply H1. reflexivity.
  - destruct (stream_url_selection (returning (VDict two_formats)) "dQw4w9WgXcQ") as [H _].
    destruct (H two_formats eq_refl) as (_ & H2 & _).
    apply (H2 {[ "url" := VStr "https://cdn/f0" ]} [VDict {[ "url" := VStr "https://cdn/f1" ]}]);
      reflexivity.
  - destruct (stream_url_selection (returning (VDict {[ "title" := VStr "T" ]})) "dQw4w9WgXcQ")
      as [H _].
    destruct (H {[ "title" := VStr "T" ]} eq_refl) as (_ & _ & H3).
    apply H3; [reflexivity | left; reflexivity].
Defined.

Lemma first_format_without_url_witness :
  get_youtube_stream_url
    (returning (VDict {[ "formats" := VList [VDict {[ "format_id" := VStr "18" ]};
                                             VDict {[ "url" := VStr "https://cdn/f1" ]}] ]}))
    "dQw4w9WgXcQ" = Ok (VNone, VNone, VStr "Unexpected error: 'url'").
Proof.
  refine (proj1 (proj2 (first_format_without_url
    (returning (VDict {[ "formats" := VList [VDict {[ "format_id" := VStr "18" ]};
                                             VDict {[ "url" := VStr "https://cdn/f1" ]}] ]}))
    "dQw4w9WgXcQ" _ (VDict {[ "format_id" := VStr "18" ]}) _ _ _ _ _))
    {[ "format_id" := VStr "18" ]} _); try reflexivity.
  intros f [= <-]. reflexivity.
Defined.

(** * Further properties of the normaliser *)

Lemma length_app (a b : string) :
  String.length (a +:+ b) = String.length a + String.length b.
Proof. induction a as [|c a IH]; simpl; [done | by rewrite IH]. Qed.

Lemma str_all_app (p : ascii → bool) (a b : string) :
  str_all p (a +:+ b) = str_all p a && str_all p b.
Proof. induction a as [|c a IH]; simpl; [done | by rewrite IH, andb_assoc]. Qed.

Lemma re_search_None (r : regex) (f : string → option string) (s : string) :
  (∀ i s, group1 <$> match_at r i s = f s) →
  re_search r s = None ↔ scan f s = None.
Proof.
  intros Hf. unfold re_search. rewrite <- (search_scan r f Hf 0 s).
  by destruct (search_from r 0 s).
Qed.

Lemma first_search_one (s : string) : first_search [pattern1] s = scan hit1 s.
Proof.
  unfold first_search, re_search. rewrite <- (search_scan _ _ match_at_pattern1 0 s).
  by destruct (search_from pattern1 0 s).
Qed.

Lemma first_search_all (s : string) : first_search patterns s = scan hit1 s.
Proof.
  unfold patterns, first_search, re_search.
  rewrite <- (search_scan _ _ match_at_pattern1 0 s).
  destruct (search_from pattern1 0 s) as [mo|] eqn:H1; [done|].
  assert (scan hit1 s = None) as Hs
    by (by apply (re_search_None pattern1 hit1 s match_at_pattern1)).
  pose proof (scan_later_dead hit2 s hit2_hit1 Hs) as H2.
  pose proof (scan_later_dead hit3 s hit3_hit1 Hs) as H3.
  apply (re_search_None pattern2 hit2 s match_at_pattern2) in H2.
  apply (re_search_None pattern3 hit3 s match_at_pattern3) in H3.
  unfold re_search in H2, H3. by rewrite H2, H3.
Qed.

Lemma accepted_chars (s : string) :
  accepted s = true → str_all (fun c => id_char c || Ascii.eqb c LF) s = true.
Proof.
  intros [Hc | (id & Hc & ->)]%accepted_spec.
  - unfold canonical in Hc. apply andb_true_iff in Hc as [_ Hc].
    induction s as [|c s IH]; simpl in *; [done|].
    apply andb_true_iff in Hc as [-> Hc]. by rewrite IH.
  - unfold canonical in Hc. apply andb_true_iff in Hc as [_ Hc].
    rewrite str_all_app. apply andb_true_iff. split; [|done].
    clear -Hc. induction id as [|c s IH]; simpl in *; [done|].
    apply andb_true_iff in Hc as [-> Hc]. by rewrite IH.
Qed.

Lemma lead_not_accepted (pre lead tl : string) :
  lead = "v=" ∨ lead = "/" → accepted (pre +:+ lead +:+ tl) = false.
Proof.
  intros Hl. destruct (accepted _) eqn:Ha; [|done].
  apply accepted_chars in Ha. rewrite !str_all_app in Ha.
  apply andb_true_iff in Ha as [_ [Ha _]%andb_true_iff].
  by destruct Hl as [-> | ->].
Qed.

Lemma hit1_no_lead (c : ascii) (s : string) : no_lead c = true → hit1 (String c s) = None.
Proof.
  unfold no_lead, hit1, id_after. intros [Hv Hs]%andb_true_iff.
  rewrite Ascii.eqb_sym in Hv. rewrite Ascii.eqb_sym in Hs.
  apply negb_true_iff in Hv, Hs. cbn [strip_prefix]. by rewrite Hv, Hs.
Qed.

(** X1. The second and the third pattern are never the ones that decide:
    where the first pattern is not found, neither of them is found, so
    the loop over the three patterns gives what the first one alone
    gives. *)
Theorem later_patterns_never_decide (s : string) :
  (re_search pattern1 s = None → re_search pattern2 s = None ∧ re_search pattern3 s = None)
  ∧ first_search patterns s = first_search [pattern1] s.
Proof.
  split.
  - intros H1%(re_search_None pattern1 hit1 s match_at_pattern1). split.
    + apply (re_search_None pattern2 hit2 s match_at_pattern2).
      exact (scan_later_dead hit2 s hit2_hit1 H1).
    + apply (re_search_None pattern3 hit3 s match_at_pattern3).
      exact (scan_later_dead hit3 s hit3_hit1 H1).
  - by rewrite first_search_all, first_search_one.
Qed.

Lemma later_patterns_never_decide_witness :
  re_search pattern2 "embed/short" = None ∧ re_search pattern3 "embed/short" = None.
Proof. apply (proj1 (later_patterns_never_decide "embed/short")). reflexivity. Defined.

(** X2. [extract_video_id] returns [None] exactly when the test of line 26
    fails and nowhere in the input [v=] or a slash is followed by 11
    class characters. *)
Theorem not_found_iff (s : string) :
  extract_video_id s = None ↔ re_match valid_id_pattern s = None ∧ ¬ has_id_after s.
Proof.
  rewrite extract_video_id_None. pose proof (re_match_valid s) as Hv.
  split; intros [Ha Hn]; (split; [|done]).
  - destruct (re_match valid_id_pattern s) eqn:Hm; [|done].
    rewrite (proj1 Hv) in Ha; [done | by eexists].
  - destruct (accepted s); [|done]. destruct (proj2 Hv eq_refl) as [mo Hm]. congruence.
Qed.

(** X3. What [extract_video_id] returns is 11 class characters, except
    for an input made of 11 class characters and a line feed, which comes
    back whole. *)
Theorem result_is_canonical_or_line_feed (s r : string) :
  extract_video_id s = Some r →
  canonical r = true ∨ (r = s ∧ ∃ id, canonical id = true ∧ s = id +:+ String LF "").
Proof. apply extract_video_id_shape. Qed.

Lemma result_is_canonical_or_line_feed_witness :
  canonical "dQw4w9WgXcQ" = true
  ∨ ("dQw4w9WgXcQ" = "https://youtu.be/dQw4w9WgXcQ?t=1"
     ∧ ∃ id, canonical id = true ∧ "https://youtu.be/dQw4w9WgXcQ?t=1" = id +:+ String LF "").
Proof.
  apply (result_is_canonical_or_line_feed "https://youtu.be/dQw4w9WgXcQ?t=1" "dQw4w9WgXcQ").
  reflexivity.
Defined.

(** X4. The result is a piece of the input: nothing is returned that the
    input does not hold, contiguously. *)
Theorem result_is_substring (s r : string) :
  extract_video_id s = Some r → ∃ pre post, s = pre +:+ r +:+ post.
Proof.
  rewrite extract_video_id_eq. destruct (accepted s).
  - intros [= <-]. exists "", "". by rewrite append_empty_r.
  - intros (pre & suf & -> & H)%scan_Some.
    apply hit1_Some in H as (_ & lead & tl & _ & ->).
    exists (pre +:+ lead), tl. by rewrite append_assoc.
Qed.

Lemma result_is_substring_witness :
  ∃ pre post, "https://youtu.be/dQw4w9WgXcQ?t=1" = pre +:+ "dQw4w9WgXcQ" +:+ post.
Proof.
  apply (result_is_substring "https://youtu.be/dQw4w9WgXcQ?t=1" "dQw4w9WgXcQ"). reflexivity.
Defined.

(** X5. Normalising is idempotent: a result, given back as input, is
    returned unchanged. *)
Theorem normalise_idempotent (s r : string) :
  extract_video_id s = Some r → extract_video_id r = Some r.
Proof.
  intros H. destruct (extract_video_id_shape s r H) as [Hc | [-> _]]; [|done].
  rewrite extract_video_id_eq. by rewrite (proj2 (accepted_spec r) (or_introl Hc)).
Qed.

Lemma normalise_idempotent_witness : extract_video_id "dQw4w9WgXcQ" = Some "dQw4w9WgXcQ".
Proof.
  apply (normalise_idempotent "https://www.youtube.com/embed/dQw4w9WgXcQ" "dQw4w9WgXcQ").
  reflexivity.
Defined.

(** X6. An input of fewer than 11 characters, the empty one among them,
    never gives an ID. *)
Theorem short_input_not_found (s : string) :
  String.length s < 11 → extract_video_id s = None.
Proof.
  intros Hl. apply extract_video_id_None. split.
  - destruct (accepted s) eqn:Ha; [|done].
    apply accepted_spec in Ha as [Hc | (id & Hc & ->)].
    + apply canonical_length in Hc. lia.
    + apply canonical_length in Hc. rewrite length_app in Hl. lia.
  - intros (pre & lead & id & tl & _ & Hc & ->).
    apply canonical_length in Hc. rewrite !length_app in Hl. lia.
Qed.

Lemma short_input_not_found_witness : extract_video_id "v=abc" = None.
Proof. apply (short_input_not_found "v=abc"). simpl. lia. Defined.

(** X7. Whatever follows the ID in a watch URL, a short URL or an embed
    URL (a further parameter, a fragment, more class characters), the
    result is the 11 characters that come first. *)
Theorem url_with_trailing_content (id tl : string) :
  canonical id = true →
  extract_video_id ("https://www.youtube.com/watch?v=" +:+ id +:+ tl) = Some id
  ∧ extract_video_id ("https://youtu.be/" +:+ id +:+ tl) = Some id
  ∧ extract_video_id ("https://www.youtube.com/embed/" +:+ id +:+ tl) = Some id.
Proof.
  intros Hc. rewrite !extract_video_id_eq.
  pose proof (hit1_lead "v=" id tl (or_introl eq_refl) Hc) as Hv.
  pose proof (hit1_lead "/" id tl (or_intror eq_refl) Hc) as Hs.
  repeat split.
  - assert (accepted ("https://www.youtube.com/watch?v=" +:+ id +:+ tl) = false) as ->
      by reflexivity.
    scan_to_hit. exact Hv.
  - assert (accepted ("https://youtu.be/" +:+ id +:+ tl) = false) as -> by reflexivity.
    scan_to_hit. exact Hs.
  - assert (accepted ("https://www.youtube.com/embed/" +:+ id +:+ tl) = false) as ->
      by reflexivity.
    scan_to_hit. exact Hs.
Qed.

Lemma url_with_trailing_content_witness :
  extract_video_id ("https://www.youtube.com/watch?v=" +:+ "dQw4w9WgXcQ" +:+ "&list=PL1") =
    Some "dQw4w9WgXcQ"
  ∧ extract_video_id ("https://youtu.be/" +:+ "dQw4w9WgXcQ" +:+ "&list=PL1") =
    Some "dQw4w9WgXcQ"
  ∧ extract_video_id ("https://www.youtube.com/embed/" +:+ "dQw4w9WgXcQ" +:+ "&list=PL1") =
    Some "dQw4w9WgXcQ".
Proof. apply (url_with_trailing_content "dQw4w9WgXcQ" "&list=PL1"). reflexivity. Defined.

(** X8. After any text that holds neither a [v] nor a slash, a [v=] or a
    slash followed by 11 class characters gives those 11 characters,
    whatever comes after them. *)
Theorem first_lead_wins (pre lead id tl : string) :
  str_all no_lead pre = true →
  lead = "v=" ∨ lead = "/" →
  canonical id = true →
  extract_video_id (pre +:+ lead +:+ id +:+ tl) = Some id.
Proof.
  intros Hp Hl Hc. rewrite extract_video_id_eq, (lead_not_accepted pre lead _ Hl).
  induction pre as [|c pre IH]; simpl in *.
  - apply scan_here. by apply hit1_lead.
  - apply andb_true_iff in Hp as [Hn Hp]. rewrite (hit1_no_lead c _ Hn). by apply IH.
Qed.

Lemma first_lead_wins_witness :
  extract_video_id ("id: " +:+ "v=" +:+ "dQw4w9WgXcQ" +:+ "/aaaaaaaaaaa") = Some "dQw4w9WgXcQ".
Proof. apply (first_lead_wins "id: " "v=" "dQw4w9WgXcQ" "/aaaaaaaaaaa"); auto. Defined.

Lemma not_found_iff_witness :
  re_match valid_id_pattern "not a url" = None ∧ ¬ has_id_after "not a url".
Proof. apply (proj1 (not_found_iff "not a url")). reflexivity. Defined.

(** * Further properties of the gateway and of the handler *)

Lemma gateway_dict (ydl : capability) (video_id : string) (d : gmap string pyval)
    (stream_url : pyval) :
  ydl ydl_opts ("https://www.youtube.com/watch?v=" +:+ video_id) false = Ok (VDict d) →
  stream_source d = Some stream_url →
  get_youtube_stream_url ydl video_id = Ok (stream_url, VDict (video_info_of d), VNone).
Proof.
  intros Hy Hs. unfold get_youtube_stream_url. rewrite (try_body_dict _ _ d Hy).
  unfold stream_source in Hs. destruct (d !! "url") as [u|]; [by injection Hs as ->|].
  destruct (d !! "formats") as [[| | | |[|[| | | | |f] l]|]|]; try done.
  cbn. by rewrite Hs.
Qed.

Lemma gateway_not_dict (ydl : capability) (video_id : string) (info : pyval) :
  ydl ydl_opts ("https://www.youtube.com/watch?v=" +:+ video_id) false = Ok info →
  (∀ d, info ≠ VDict d) →
  ∃ cause, get_youtube_stream_url ydl video_id = Ok (failure ("Unexpected error: " +:+ cause)).
Proof.
  intros Hy Hd. unfold get_youtube_stream_url, try_body. rewrite Hy.
  destruct info as [| | | s | l | d]; cbn; try (by eexists).
  - destruct (str_in "url" s); cbn; by eexists.
  - destruct (existsb (is_str "url") l); cbn; by eexists.
  - by destruct (Hd d).
Qed.

Lemma gateway_no_stream (ydl : capability) (video_id : string) (d : gmap string pyval) :
  ydl ydl_opts ("https://www.youtube.com/watch?v=" +:+ video_id) false = Ok (VDict d) →
  d !! "url" = None →
  get_youtube_stream_url ydl video_id = Ok (failure "No stream URL found in video info")
  ↔ truthy (default (VList []) (d !! "formats")) = false.
Proof.
  intros Hy Hu. unfold get_youtube_stream_url. rewrite (try_body_dict _ _ d Hy), Hu. cbn zeta.
  destruct (truthy _); [|done]. split; [|done].
  destruct (py_getitem0 _) as [first|e]; cbn [mbind outcome_bind].
  - destruct (py_getitem first "url") as [u|e]; [done|].
    unfold handle. destruct (exn_class_of e); repeat case_match; by intros [=].
  - unfold handle. destruct (exn_class_of e); repeat case_match; by intros [=].
Qed.

(** X10. A capability result that is not a dict ([None], a number, a
    string, a list) gives an unexpected-error failure. *)
Theorem non_dict_result_is_unexpected_error (ydl : capability) (video_id : string)
    (info : pyval) :
  ydl ydl_opts ("https://www.youtube.com/watch?v=" +:+ video_id) false = Ok info →
  (∀ d, info ≠ VDict d) →
  ∃ cause,
    get_youtube_stream_url ydl video_id = Ok (VNone, VNone, VStr ("Unexpected error: " +:+ cause)).
Proof. apply gateway_not_dict. Qed.

Lemma non_dict_result_is_unexpected_error_witness :
  ∃ cause,
    get_youtube_stream_url (returning VNone) "dQw4w9WgXcQ" =
    Ok (VNone, VNone, VStr ("Unexpected error: " +:+ cause)).
Proof.
  apply (non_dict_result_is_unexpected_error (returning VNone) "dQw4w9WgXcQ" VNone).
  - reflexivity.
  - discriminate.
Defined.

(** X11. The gateway succeeds exactly when the capability returns a dict
    that has a top-level [url] or, without one, a [formats] list whose
    first entry is a dict with a [url]; the triple then holds that value
    and the metadata dict. *)
Theorem success_iff (ydl : capability) (video_id : string) (stream_url video_info : pyval) :
  get_youtube_stream_url ydl video_id = Ok (stream_url, video_info, VNone)
  ↔ ∃ d, ydl ydl_opts ("https://www.youtube.com/watch?v=" +:+ video_id) false = Ok (VDict d)
         ∧ stream_source d = Some stream_url
         ∧ video_info = VDict (video_info_of d).
Proof.
  split; [apply get_youtube_stream_url_success|].
  intros (d & Hy & Hs & ->). by apply gateway_dict.
Qed.

Lemma success_iff_witness :
  get_youtube_stream_url (returning (VDict two_formats)) "dQw4w9WgXcQ" =
  Ok (VStr "https://cdn/f0", VDict (video_info_of two_formats), VNone).
Proof.
  apply (proj2 (success_iff (returning (VDict two_formats)) "dQw4w9WgXcQ"
                  (VStr "https://cdn/f0") (VDict (video_info_of two_formats)))).
  exists two_formats. repeat split; reflexivity.
Defined.

(** X12. On an info dict without a top-level [url], the failure "No
    stream URL found in video info" is returned exactly when [formats] is
    absent or falsy: an empty list, but also [None], 0, an empty string or
    an empty dict. *)
Theorem no_stream_iff_formats_falsy (ydl : capability) (video_id : string)
    (d : gmap string pyval) :
  ydl ydl_opts ("https://www.youtube.com/watch?v=" +:+ video_id) false = Ok (VDict d) →
  d !! "url" = None →
  get_youtube_stream_url ydl video_id =
    Ok (VNone, VNone, VStr "No stream URL found in video info")
  ↔ truthy (default (VList []) (d !! "formats")) = false.
Proof. apply gateway_no_stream. Qed.

Lemma no_stream_iff_formats_falsy_witness :
  get_youtube_stream_url (returning (VDict {[ "formats" := VNone ]})) "dQw4w9WgXcQ" =
  Ok (VNone, VNone, VStr "No stream URL found in video info").
Proof.
  refine (proj2 (no_stream_iff_formats_falsy (returning (VDict {[ "formats" := VNone ]}))
                   "dQw4w9WgXcQ" {[ "formats" := VNone ]} _ _) _);
    vm_compute; reflexivity.
Defined.

(** X13. The metadata dict of a success has the five keys [title],
    [description], [channel_name], [duration] and [thumbnail] and no
    other: nothing else of the capability's result is passed on in it. *)
Theorem metadata_keys (ydl : capability) (video_id : string) (stream_url : pyval)
    (m : gmap string pyval) :
  get_youtube_stream_url ydl video_id = Ok (stream_url, VDict m, VNone) →
  dom m = ({[ "title"; "description"; "channel_name"; "duration"; "thumbnail" ]} : gset string).
Proof.
  intros (d & _ & _ & [= ->])%get_youtube_stream_url_success.
  unfold video_info_of. by rewrite !dom_insert_L, dom_singleton_L.
Qed.

Lemma metadata_keys_witness :
  dom (video_info_of url_and_title) =
  ({[ "title"; "description"; "channel_name"; "duration"; "thumbnail" ]} : gset string).
Proof.
  apply (metadata_keys (returning (VDict url_and_title)) "dQw4w9WgXcQ"
           (VStr "https://cdn/stream")).
  vm_compute. reflexivity.
Defined.

(** The four ways through [get_stream]. *)
Lemma get_stream_cases (percent_decode : string → string) (ydl : capability) (path : string) :
  (extract_video_id (unquote percent_decode path) = None
   ∧ get_stream percent_decode ydl path = Ok invalid_input)
  ∨ (∃ video_id stream_url video_info,
       extract_video_id (unquote percent_decode path) = Some video_id
       ∧ get_youtube_stream_url ydl video_id = Ok (stream_url, VDict video_info, VNone)
       ∧ get_stream percent_decode ydl path =
         Ok (Response {[ "success" := VBool true;
                         "video_id" := VStr video_id;
                         "stream_url" := stream_url;
                         "video_info" := VDict video_info;
                         "cache_info" := VStr "Stream URL expires after maximum 12 hours" ]}
                      200))
  ∨ (∃ video_id error,
       extract_video_id (unquote percent_decode path) = Some video_id
       ∧ error ≠ ""
       ∧ get_youtube_stream_url ydl video_id = Ok (VNone, VNone, VStr error)
       ∧ get_stream percent_decode ydl path =
         Ok (Response {[ "success" := VBool false;
                         "error" := VStr error;
                         "video_id" := VStr video_id ]} 404))
  ∨ (∃ video_id e,
       extract_video_id (unquote percent_decode path) = Some video_id
       ∧ ydl ydl_opts ("https://www.youtube.com/watch?v=" +:+ video_id) false = Raise e
       ∧ derives_from_Exception (exn_class_of e) = false
       ∧ get_stream percent_decode ydl path = Raise e).
Proof.
  destruct (extract_video_id (unquote percent_decode path)) as [video_id|] eqn:Hid.
  - right. destruct (get_youtube_stream_url ydl video_id) as [t|e] eqn:Ht.
    + destruct (gateway_Ok_shape _ _ t Ht) as [(u & vi & ->) | (msg & Hm & ->)].
      * left. exists video_id, u, vi. split; [done|]. split; [done|].
        by apply get_stream_success.
      * right. left. exists video_id, msg. split; [done|]. split; [done|]. split; [done|].
        by apply (get_stream_failure _ _ _ _ _ _ _ Hid Ht).
    + right. right. exists video_id, e. split; [done|].
      destruct (gateway_Raise_inv _ _ e Ht) as [Hy Hd]. split; [done|]. split; [done|].
      unfold get_stream. by rewrite Hid, (extract_video_id_truthy _ _ Hid), Ht.
  - left. split; [done|]. by apply get_stream_invalid.
Qed.

(** X14. The handler answers every request unless the capability raises
    an exception that does not derive from [Exception], which it lets
    through: it answers with status 200, 400 or 404, the [success] flag
    true exactly for 200 and an [error] in the body exactly when the
    status is not 200. *)
Theorem handler_always_answers (percent_decode : string → string) (ydl : capability)
    (path : string) :
  (∃ r, get_stream percent_decode ydl path = Ok r
        ∧ (status r = 200 ∨ status r = 400 ∨ status r = 404)
        ∧ body r !! "success" = Some (VBool (status r =? 200)%nat)
        ∧ (is_Some (body r !! "error") ↔ status r ≠ 200))
  ∨ (∃ video_id e,
       extract_video_id (unquote percent_decode path) = Some video_id
       ∧ ydl ydl_opts ("https://www.youtube.com/watch?v=" +:+ video_id) false = Raise e
       ∧ derives_from_Exception (exn_class_of e) = false
       ∧ get_stream percent_decode ydl path = Raise e).
Proof.
  destruct (get_stream_cases percent_decode ydl path)
    as [[_ ->] | [(vid & u & vi & _ & _ & ->) | [(vid & msg & _ & _ & _ & ->) | H]]];
    [left | left | left | by right];
    eexists; (split; [reflexivity|]); cbn [status body].
  - split; [auto|]. split; [done|]. split; [done | by eexists].
  - split; [auto|]. split; [by simplify_map_eq|].
    split; [|done]. simplify_map_eq. by intros [? ?].
  - split; [auto|]. split; [by simplify_map_eq|].
    split; [done|]. simplify_map_eq. by eexists.
Qed.

(** X15. When the gateway returns a stream URL for the normalised ID,
    the handler answers 200 with that ID, the stream URL, the metadata
    dict and the note on the expiry. *)
Theorem success_response (percent_decode : string → string) (ydl : capability)
    (path video_id : string) (d : gmap string pyval) (stream_url : pyval) :
  extract_video_id (unquote percent_decode path) = Some video_id →
  ydl ydl_opts ("https://www.youtube.com/watch?v=" +:+ video_id) false = Ok (VDict d) →
  stream_source d = Some stream_url →
  get_stream percent_decode ydl path =
  Ok (Response {[ "success" := VBool true;
                  "video_id" := VStr video_id;
                  "stream_url" := stream_url;
                  "video_info" := VDict (video_info_of d);
                  "cache_info" := VStr "Stream URL expires after maximum 12 hours" ]}
               200).
Proof.
  intros Hid Hy Hs. apply get_stream_success; [done|]. by apply gateway_dict.
Qed.

Lemma success_response_witness :
  get_stream (fun s => s) (returning (VDict two_formats))
    "https://www.youtube.com/embed/dQw4w9WgXcQ" =
  Ok (Response {[ "success" := VBool true;
                  "video_id" := VStr "dQw4w9WgXcQ";
                  "stream_url" := VStr "https://cdn/f0";
                  "video_info" := VDict (video_info_of two_formats);
                  "cache_info" := VStr "Stream URL expires after maximum 12 hours" ]}
               200).
Proof.
  apply (success_response (fun s => s) (returning (VDict two_formats))
           "https://www.youtube.com/embed/dQw4w9WgXcQ" "dQw4w9WgXcQ" two_formats);
    reflexivity.
Defined.

(** X16. The status tells the three cases apart: 400 exactly when the
    normaliser finds no ID, 200 exactly when the gateway returns no error
    for the ID, 404 exactly when it returns one. *)
Theorem status_tells_the_case (percent_decode : string → string) (ydl : capability)
    (path : string) (r : response) :
  get_stream percent_decode ydl path = Ok r →
  (status r = 400 ↔ extract_video_id (unquote percent_decode path) = None)
  ∧ (status r = 200 ↔
     ∃ video_id stream_url video_info,
       extract_video_id (unquote percent_decode path) = Some video_id
       ∧ get_youtube_stream_url ydl video_id = Ok (stream_url, video_info, VNone))
  ∧ (status r = 404 ↔
     ∃ video_id error,
       extract_video_id (unquote percent_decode path) = Some video_id
       ∧ get_youtube_stream_url ydl video_id = Ok (VNone, VNone, VStr error)).
Proof.
  destruct (get_stream_cases percent_decode ydl path)
    as [[Hid ->] | [(vid & u & vi & Hid & Hr & ->) | [(vid & msg & Hid & _ & Hr & ->)
        | (vid & e & _ & _ & _ & ->)]]];
    [| | | done]; intros [= <-]; cbn [status invalid_input]; rewrite Hid.
  - split; [done|]. split; (split; [done|]); by intros (? & ? & ? & ? & _) || intros (? & ? & ? & _).
  - split; [done|]. split; [split; [eauto | done]|].
    split; [done|]. intros (v & e & [= <-] & He). congruence.
  - split; [done|]. split; [|split; [eauto | done]].
    split; [done|]. intros (v & u & vi & [= <-] & He). congruence.
Qed.

Lemma status_tells_the_case_witness :
  extract_video_id (unquote (fun s => s) "not a url") = None.
Proof.
  apply (proj1 (proj1 (status_tells_the_case (fun s => s) (returning VNone) "not a url"
                         invalid_input eq_refl))).
  reflexivity.
Defined.

(** X17. A 404 of the handler names the video: its body holds the
    normalised ID under [video_id], which neither the body of
    [page_not_found] nor the 400 body has, so the extraction failure is
    never mistaken for the unmatched route. *)
Theorem extraction_404_names_the_video (percent_decode : string → string) (ydl : capability)
    (path : string) (r : response) :
  get_stream percent_decode ydl path = Ok r →
  status r = 404 →
  (∃ video_id,
     extract_video_id (unquote percent_decode path) = Some video_id
     ∧ body r !! "video_id" = Some (VStr video_id))
  ∧ (∀ e, body (page_not_found e) !! "video_id" = None ∧ r ≠ page_not_found e)
  ∧ body invalid_input !! "video_id" = None.
Proof.
  destruct (get_stream_cases percent_decode ydl path)
    as [[Hid ->] | [(vid & u & vi & Hid & Hr & ->) | [(vid & msg & Hid & _ & Hr & ->)
        | (vid & e & _ & _ & _ & ->)]]];
    [| | | done]; intros [= <-]; cbn [status invalid_input]; try done.
  intros _. split; [|split; [|done]].
  - exists vid. split; [done|]. by simplify_map_eq.
  - intros e. split; [done|]. intros H.
    apply (f_equal (fun x => body x !! "video_id")) in H. by simplify_map_eq.
Qed.

Lemma extraction_404_names_the_video_witness :
  ∃ video_id,
    extract_video_id (unquote (fun s => s) "dQw4w9WgXcQ") = Some video_id
    ∧ body (Response {[ "success" := VBool false;
                        "error" := VStr "This video is private";
                        "video_id" := VStr "dQw4w9WgXcQ" ]} 404) !! "video_id"
      = Some (VStr video_id).
Proof.
  apply (proj1 (extraction_404_names_the_video (fun s => s)
                  (raising (Exn DownloadError "ERROR: Private video")) "dQw4w9WgXcQ"
                  _ eq_refl eq_refl)).
Defined.

Lemma str_in_spec (needle hay : string) :
  str_in needle hay = true ↔ ∃ pre post, hay = pre +:+ needle +:+ post.
Proof.
  split.
  - induction hay as [|c hay IH]; simpl.
    + destruct (strip_prefix needle "") as [post|] eqn:Hp; [|done].
      apply strip_prefix_spec in Hp. intros _. by exists "", post.
    + destruct (strip_prefix needle (String c hay)) as [post|] eqn:Hp.
      * apply strip_prefix_spec in Hp. intros _. by exists "", post.
      * intros (pre & post & ->)%IH. by exists (String c pre), post.
  - intros (pre & post & ->). induction pre as [|c pre IH]; simpl.
    + pose proof (strip_prefix_app needle post) as Hp.
      destruct (needle +:+ post); simpl; by rewrite Hp.
    + by destruct (strip_prefix needle _).
Qed.

(** X18. A [DownloadError] whose message holds "Video unavailable"
    anywhere gives the unavailable reason, whatever stands before and
    after the phrase in the message. *)
Theorem unavailable_anywhere (ydl : capability) (video_id pre post : string) :
  ydl ydl_opts ("https://www.youtube.com/watch?v=" +:+ video_id) false =
    Raise (Exn DownloadError (pre +:+ "Video unavailable" +:+ post)) →
  get_youtube_stream_url ydl video_id =
  Ok (VNone, VNone, VStr "Video is unavailable or has been removed").
Proof.
  intros Hy. rewrite (gateway_raise _ _ _ Hy). unfold handle. cbn [exn_class_of exn_str].
  by rewrite (proj2 (str_in_spec "Video unavailable" _) (ex_intro _ pre (ex_intro _ post eq_refl))).
Qed.

Lemma unavailable_anywhere_witness :
  get_youtube_stream_url
    (raising (Exn DownloadError
                ("ERROR: [youtube] dQw4w9WgXcQ: " +:+ "Video unavailable" +:+ ". Private video")))
    "dQw4w9WgXcQ" =
  Ok (VNone, VNone, VStr "Video is unavailable or has been removed").
Proof.
  apply (unavailable_anywhere _ "dQw4w9WgXcQ" "ERROR: [youtube] dQw4w9WgXcQ: " ". Private video").
  reflexivity.
Defined.

Lemma handler_always_answers_witness :
  get_stream (fun s => s) (raising (Exn KeyboardInterrupt "")) "dQw4w9WgXcQ" =
  Raise (Exn KeyboardInterrupt "").
Proof.
  destruct (handler_always_answers (fun s => s) (raising (Exn KeyboardInterrupt ""))
              "dQw4w9WgXcQ") as [(r & Hr & _) | (vid & e & _ & He & _ & Hr)].
  - vm_compute in Hr. discriminate Hr.
  - injection He as <-. exact Hr.
Defined.

(** C6. From the input made of 11 class characters and a line feed no
    canonical ID can be derived: it is not 11 class characters, and it
    holds no [v=] and no slash.  Yet [extract_video_id] returns it whole
    instead of [None], and the handler does not answer 400: it hands the
    12 characters to the gateway and, with a capability that finds a
    stream, answers 200. *)
Theorem line_feed_input_not_rejected :
  canonical ("dQw4w9WgXcQ" +:+ String LF "") = false
  ∧ ¬ has_id_after ("dQw4w9WgXcQ" +:+ String LF "")
  ∧ extract_video_id ("dQw4w9WgXcQ" +:+ String LF "") = Some ("dQw4w9WgXcQ" +:+ String LF "")
  ∧ (∀ percent_decode ydl,
       get_stream percent_decode ydl ("dQw4w9WgXcQ" +:+ String LF "") ≠ Ok invalid_input)
  ∧ get_stream (fun s => s) (returning (VDict url_and_title)) ("dQw4w9WgXcQ" +:+ String LF "") =
    Ok (Response {[ "success" := VBool true;
                    "video_id" := VStr ("dQw4w9WgXcQ" +:+ String LF "");
                    "stream_url" := VStr "https://cdn/stream";
                    "video_info" := VDict (video_info_of url_and_title);
                    "cache_info" := VStr "Stream URL expires after maximum 12 hours" ]}
                 200).
Proof.
  split; [reflexivity|]. split; [apply scan_hit1_None; reflexivity|].
  split; [reflexivity|]. split.
  - intros pd ydl.
    destruct (get_stream_cases pd ydl ("dQw4w9WgXcQ" +:+ String LF ""))
      as [[Hid _] | [(vid & u & vi & _ & _ & ->) | [(vid & msg & _ & _ & _ & ->)
          | (vid & e & _ & _ & _ & ->)]]]; [|done..].
    vm_compute in Hid. discriminate Hid.
  - apply (get_stream_success _ _ _ ("dQw4w9WgXcQ" +:+ String LF "")); [reflexivity|].
    apply gateway_dict; reflexivity.
Qed.
